(** * Verification of the persistence, snapshot and sync core of the
    offline finance app (src/unnamed/part_000, app.js).

    Shallow embedding conventions:
    - JS numbers that carry money are exact rationals [Q]; integer-valued
      fields (stock, qty, ids, table numbers) are [Z].  [Number(x)] of a
      loosely typed input is given as [option Q], [None] standing for a
      non-finite result (NaN, Infinity).
    - Parsed JSON documents are [jval].
    - IndexedDB is a [gmap string kvval] inside a [world] that also says
      which keys fail on read and on write; the async code runs in a small
      state-and-error monad over that world.
    - The clock is an explicit millisecond argument. *)

From stdpp Require Import base gmap strings list.
From Stdlib Require Import QArith Qround Qabs ZArith String Ascii Lia.

Set Warnings "-register-all".

Local Open Scope Z_scope.

(* ================================================================= *)
(** ** JSON values and JS coercions *)

Inductive jval :=
| JNull
| JBool (b : bool)
| JNum (q : Q)
| JStr (s : string)
| JArr (xs : list jval)
| JObj (kvs : list (string * jval)).

(** Property read [o.k]: on an object the last binding wins (as
    [JSON.parse] keeps the last duplicate key); on anything else the
    property is [undefined] ([None]). *)
Definition obj_get (k : string) (v : jval) : option jval :=
  match v with
  | JObj kvs =>
      match List.find (fun kv => String.eqb (fst kv) k) (List.rev kvs) with
      | Some kv => Some (snd kv)
      | None => None
      end
  | _ => None
  end.

(** JS truthiness of a (possibly undefined) value. *)
Definition truthy (v : option jval) : bool :=
  match v with
  | None | Some JNull => false
  | Some (JBool b) => b
  | Some (JNum q) => negb (Qeq_bool q 0)
  | Some (JStr s) => negb (String.eqb s "")
  | Some (JArr _) | Some (JObj _) => true
  end.

(** [typeof v === 'object'] (arrays and null included). *)
Definition typeof_object (v : option jval) : bool :=
  match v with
  | Some JNull | Some (JArr _) | Some (JObj _) => true
  | _ => false
  end.

Definition is_array (v : option jval) : bool :=
  match v with Some (JArr _) => true | _ => false end.

(** [v?.length] for the values whose [length] is defined. *)
Definition js_length (v : option jval) : option Z :=
  match v with
  | Some (JArr xs) => Some (Z.of_nat (List.length xs))
  | Some (JStr s) => Some (Z.of_nat (String.length s))
  | _ => None
  end.

(** [!x?.length] *)
Definition no_length (v : option jval) : bool :=
  match js_length v with Some n => Z.eqb n 0 | None => true end.

(** [a || b] on optional strings: an absent or empty string is falsy. *)
Definition str_or (a : option string) (b : string) : string :=
  match a with
  | Some s => if String.eqb s "" then b else s
  | None => b
  end.

Definition str_truthy (a : option string) : bool :=
  match a with Some s => negb (String.eqb s "") | None => false end.

(* ================================================================= *)
(** ** Numeric helpers: parseMoney, clampInt, toFixed(2) *)

(** [parseMoney(value)]: [n = Number(value)]; finite ? n : 0. *)
Definition parseMoney (n : option Q) : Q :=
  match n with Some q => q | None => 0%Q end.

(** [clampInt(n, min, max)]: [Math.floor(Number(n))], [min] when not
    finite, else [Math.min(max, Math.max(min, x))]. *)
Definition clampInt (n : option Q) (min max : Z) : Z :=
  match n with
  | None => min
  | Some q => Z.min max (Z.max min (Qfloor q))
  end.

(** [Number(x.toFixed(2))] on the exact value: round to two decimals,
    halves away from zero (toFixed works on the magnitude). *)
Definition round2 (q : Q) : Q :=
  let a := Qfloor (Qabs q * 100 + (1 # 2)) in
  if Qle_bool 0 q then (a # 100)%Q else ((- a) # 100)%Q.

(* ================================================================= *)
(** ** Strings: trim and toLowerCase (ASCII) *)

Definition is_ws (c : ascii) : bool :=
  match nat_of_ascii c with
  | 32 | 9 | 10 | 11 | 12 | 13 => true
  | _ => false
  end%nat.

Fixpoint drop_ws (l : list ascii) : list ascii :=
  match l with
  | c :: r => if is_ws c then drop_ws r else l
  | [] => []
  end.

(** [String.prototype.trim] restricted to ASCII white space. *)
Definition trim (s : string) : string :=
  string_of_list_ascii (List.rev (drop_ws (List.rev (drop_ws (list_ascii_of_string s))))).

Definition lower_ascii (c : ascii) : ascii :=
  let n := nat_of_ascii c in
  if (65 <=? n)%nat && (n <=? 90)%nat then ascii_of_nat (n + 32) else c.

(** [String.prototype.toLowerCase] restricted to ASCII letters. *)
Definition toLowerCase (s : string) : string :=
  string_of_list_ascii (List.map lower_ascii (list_ascii_of_string s)).

(** [normalizeName(s)]: [String(s || '').trim().toLowerCase()]. *)
Definition normalizeName (s : option string) : string :=
  toLowerCase (trim (str_or s "")).

(* ================================================================= *)
(** ** Time: epoch milliseconds, Date.prototype.toISOString, and the
       ISO format accepted by Date *)

Definition ms_per_day : Z := 86400000.

(** Proleptic Gregorian calendar, days since 1970-01-01. *)
Definition days_from_civil (y m d : Z) : Z :=
  let y := if m <=? 2 then y - 1 else y in
  let era := y / 400 in
  let yoe := y - era * 400 in
  let mp := if m >? 2 then m - 3 else m + 9 in
  let doy := (153 * mp + 2) / 5 + d - 1 in
  let doe := yoe * 365 + yoe / 4 - yoe / 100 + doy in
  era * 146097 + doe - 719468.

Definition civil_from_days (z : Z) : Z * Z * Z :=
  let z := z + 719468 in
  let era := z / 146097 in
  let doe := z - era * 146097 in
  let yoe := (doe - doe / 1460 + doe / 36524 - doe / 146096) / 365 in
  let doy := doe - (365 * yoe + yoe / 4 - yoe / 100) in
  let mp := (5 * doy + 2) / 153 in
  let d := doy - (153 * mp + 2) / 5 + 1 in
  let m := if mp <? 10 then mp + 3 else mp - 9 in
  let y := yoe + era * 400 in
  (if m <=? 2 then y + 1 else y, m, d).

Definition digit (n : Z) : ascii := ascii_of_nat (48 + Z.to_nat n).

(** The [w] low decimal digits of [n], zero padded. *)
Fixpoint pad (w : nat) (n : Z) : list ascii :=
  match w with
  | O => []
  | S w' => pad w' (n / 10) ++ [digit (n mod 10)]
  end.

(** [new Date(ms).toISOString().slice(0, 10)]: "YYYY-MM-DD" in UTC. *)
Definition isoDay (ms : Z) : string :=
  let '(y, m, d) := civil_from_days (ms / ms_per_day) in
  string_of_list_ascii (pad 4 y ++ ["-"%char] ++ pad 2 m ++ ["-"%char] ++ pad 2 d).

(** [new Date(ms).toISOString()]: "YYYY-MM-DDTHH:MM:SS.sssZ" (years 0..9999). *)
Definition toISOString (ms : Z) : string :=
  let r := ms mod ms_per_day in
  let hh := r / 3600000 in
  let mi := (r mod 3600000) / 60000 in
  let ss := (r mod 60000) / 1000 in
  let mss := r mod 1000 in
  (isoDay ms ++
   string_of_list_ascii (["T"%char] ++ pad 2 hh ++ [":"%char] ++ pad 2 mi ++ [":"%char]
     ++ pad 2 ss ++ ["."%char] ++ pad 3 mss ++ ["Z"%char]))%string.

Definition digit_val (c : ascii) : option Z :=
  let n := nat_of_ascii c in
  if (48 <=? n)%nat && (n <=? 57)%nat then Some (Z.of_nat n - 48) else None.

Fixpoint read_digits (acc : Z) (l : list ascii) : option Z :=
  match l with
  | [] => Some acc
  | c :: r =>
      match digit_val c with
      | Some d => read_digits (acc * 10 + d) r
      | None => None
      end
  end.

Definition field (l : list ascii) (start len : nat) : option Z :=
  read_digits 0 (List.firstn len (List.skipn start l)).

Definition char_at (l : list ascii) (i : nat) (c : ascii) : bool :=
  match List.nth_error l i with
  | Some c' => Ascii.eqb c c'
  | None => false
  end.

Definition leap (y : Z) : bool :=
  (Z.eqb (y mod 4) 0 && negb (Z.eqb (y mod 100) 0)) || Z.eqb (y mod 400) 0.

Definition days_in_month (y m : Z) : Z :=
  if Z.eqb m 2 then (if leap y then 29 else 28)
  else if Z.eqb m 4 || Z.eqb m 6 || Z.eqb m 9 || Z.eqb m 11 then 30 else 31.

(** [new Date(s).getTime()] for strings of the shape produced by
    [toISOString] ("YYYY-MM-DDTHH:MM:SS.sssZ"); every other string, the
    empty one included, is taken as an Invalid Date ([None]).  Only used
    to instantiate the parser at concrete inputs. *)
Definition isoParse (s : string) : option Z :=
  let l := list_ascii_of_string s in
  if negb (Nat.eqb (List.length l) 24) then None
  else if negb (char_at l 4 "-" && char_at l 7 "-" && char_at l 10 "T" && char_at l 13 ":"
                && char_at l 16 ":" && char_at l 19 "." && char_at l 23 "Z") then None
  else
    match field l 0 4, field l 5 2, field l 8 2, field l 11 2, field l 14 2,
          field l 17 2, field l 20 3 with
    | Some y, Some mo, Some d, Some h, Some mi, Some sec, Some ms =>
        if (1 <=? mo) && (mo <=? 12) && (1 <=? d) && (d <=? days_in_month y mo)
           && (h <? 24) && (mi <? 60) && (sec <? 60)
        then Some (days_from_civil y mo d * ms_per_day + h * 3600000 + mi * 60000
                   + sec * 1000 + ms)
        else None
    | _, _, _, _, _, _, _ => None
    end.

Example isoParse_roundtrip :
  isoParse (toISOString 1773185400123) = Some 1773185400123.
Proof. vm_compute. reflexivity. Qed.

Example toISOString_sample :
  toISOString 1773185400123 = "2026-03-10T23:30:00.123Z"%string.
Proof. vm_compute. reflexivity. Qed.

(* ================================================================= *)
(** ** Persisted documents and the IndexedDB key/value store *)

(** Keys of the [kv] object store. *)
Definition IDB_STATE_KEY : string := "state".
Definition IDB_META_KEY : string := "meta".
Definition IDB_SYNC_KEY : string := "syncConfig".
Definition IDB_SNAPSHOT_INDEX_KEY : string := "snapshotIndex".
Definition IDB_SNAPSHOT_PREFIX : string := "snapshot:".
Definition MAX_SNAPSHOTS : nat := 20.

(** The metadata record; every field may be missing. *)
Record Meta := mkMeta {
  deviceId : option string;
  stateUpdatedAt : option string;
  stateUpdatedBy : option string;
  stateUpdatedSource : option string;
  lastSnapshotDay : option string;
  legacyBillarMigratedAt : option string;
  lastSyncPushAt : option string;
  lastSyncPullAt : option string
}.

Definition emptyMeta : Meta :=
  mkMeta None None None None None None None None.

Definition set_stateUpdated (m : Meta) (dev at_ by_ src : string) : Meta :=
  mkMeta (Some dev) (Some at_) (Some by_) (Some src) (lastSnapshotDay m)
    (legacyBillarMigratedAt m) (lastSyncPushAt m) (lastSyncPullAt m).

Definition set_deviceId (m : Meta) (dev : string) : Meta :=
  mkMeta (Some dev) (stateUpdatedAt m) (stateUpdatedBy m) (stateUpdatedSource m)
    (lastSnapshotDay m) (legacyBillarMigratedAt m) (lastSyncPushAt m) (lastSyncPullAt m).

Definition set_lastSnapshotDay (m : Meta) (d : string) : Meta :=
  mkMeta (deviceId m) (stateUpdatedAt m) (stateUpdatedBy m) (stateUpdatedSource m)
    (Some d) (legacyBillarMigratedAt m) (lastSyncPushAt m) (lastSyncPullAt m).

Definition set_lastSyncPushAt (m : Meta) (t : string) : Meta :=
  mkMeta (deviceId m) (stateUpdatedAt m) (stateUpdatedBy m) (stateUpdatedSource m)
    (lastSnapshotDay m) (legacyBillarMigratedAt m) (Some t) (lastSyncPullAt m).

Definition set_lastSyncPullAt (m : Meta) (t : string) : Meta :=
  mkMeta (deviceId m) (stateUpdatedAt m) (stateUpdatedBy m) (stateUpdatedSource m)
    (lastSnapshotDay m) (legacyBillarMigratedAt m) (lastSyncPushAt m) (Some t).

(** An entry [{id, at, reason}] of the snapshot index. *)
Record IndexEntry := mkEntry { ie_id : string; ie_at : string; ie_reason : string }.

(** A snapshot body [{id, at, reason, state}]. *)
Record Snapshot := mkSnapshot {
  snap_id : string; snap_at : string; snap_reason : string; snap_state : jval
}.

(** The sync configuration [{url, user, pass, auto}]. *)
Record SyncConfig := mkSyncConfig { url : string; user : string; pass : string; auto : bool }.

(** What the store holds under a key. *)
Inductive kvval :=
| VState (s : jval)
| VMeta (m : Meta)
| VSync (c : SyncConfig)
| VIndex (idx : list IndexEntry)
| VSnap (s : Snapshot).

(** The store and its faults: [rfail k] makes every read of [k] reject,
    [wfail k] every write or delete of [k]. *)
Record world := mkWorld {
  store : gmap string kvval;
  rfail : string -> bool;
  wfail : string -> bool
}.

Definition with_store (w : world) (s : gmap string kvval) : world :=
  mkWorld s (rfail w) (wfail w).

(** The async functions: a state monad over [world] whose result is
    [None] when the returned promise rejects. *)
Definition IDB (A : Type) : Type := world -> option A * world.

Global Instance IDB_ret : MRet IDB := fun A a w => (Some a, w).
Global Instance IDB_bind : MBind IDB := fun A B f c w =>
  match c w with
  | (Some a, w') => f a w'
  | (None, w') => (None, w')
  end.

Definition throw {A} : IDB A := fun w => (None, w).

(** [try { c } catch { h }]: effects of [c] up to the failure are kept. *)
Definition catch_with {A} (c : IDB A) (h : IDB A) : IDB A := fun w =>
  match c w with
  | (Some a, w') => (Some a, w')
  | (None, w') => h w'
  end.

(** [try { c } catch { /* ignore */ }] *)
Definition try_ignore (c : IDB unit) : IDB unit := catch_with c (mret tt).

Definition idbGet (k : string) : IDB (option kvval) := fun w =>
  if rfail w k then (None, w) else (Some (store w !! k), w).

Definition idbSet (k : string) (v : kvval) : IDB unit := fun w =>
  if wfail w k then (None, w) else (Some tt, with_store w (<[k := v]> (store w))).

Definition idbDelete (k : string) : IDB unit := fun w =>
  if wfail w k then (None, w) else (Some tt, with_store w (delete k (store w))).

(** [getMeta]: the stored record, or [{}] when there is none. *)
Definition getMeta : IDB Meta :=
  m ← idbGet IDB_META_KEY;
  mret (match m with Some (VMeta x) => x | _ => emptyMeta end).

Definition setMeta (m : Meta) : IDB unit := idbSet IDB_META_KEY (VMeta m).

(** [ensureDeviceId]; [rnd] is the value [randomId()] would return. *)
Definition ensureDeviceId (rnd : string) : IDB string :=
  meta ← getMeta;
  if str_truthy (deviceId meta) then mret (str_or (deviceId meta) rnd)
  else (setMeta (set_deviceId meta rnd);; mret rnd).

(* ================================================================= *)
(** ** State repository: saveState *)

Record SaveOptions := mkSaveOptions {
  opt_updatedAt : option string; opt_updatedBy : option string; opt_source : option string
}.

Definition noOptions : SaveOptions := mkSaveOptions None None None.

(** [saveState(state, options)] at clock [now]; [rnd] is [randomId()]. *)
Definition saveState (state : jval) (options : SaveOptions) (now : Z) (rnd : string) : IDB unit :=
  idbSet IDB_STATE_KEY (VState state);;
  try_ignore (
    meta ← getMeta;
    let dev := str_or (deviceId meta) rnd in
    setMeta (set_stateUpdated meta dev
               (str_or (opt_updatedAt options) (toISOString now))
               (str_or (opt_updatedBy options) dev)
               (str_or (opt_source options) "local"))).

(* ================================================================= *)
(** ** Snapshot engine *)

Definition listSnapshots : IDB (list IndexEntry) :=
  idx ← idbGet IDB_SNAPSHOT_INDEX_KEY;
  mret (match idx with Some (VIndex l) => l | _ => [] end).

(** [while (idx.length > MAX_SNAPSHOTS) { removed = idx.pop(); ... }]
    with [fuel] bounding the iterations. *)
Fixpoint trimIndex (fuel : nat) (idx : list IndexEntry) : IDB (list IndexEntry) :=
  match fuel with
  | O => mret idx
  | S fuel' =>
      if Nat.ltb MAX_SNAPSHOTS (List.length idx) then
        match List.rev idx with
        | removed :: rest =>
            (if negb (String.eqb (ie_id removed) "")
             then try_ignore (idbDelete (IDB_SNAPSHOT_PREFIX ++ ie_id removed))
             else mret tt);;
            trimIndex fuel' (List.rev rest)
        | [] => mret idx
        end
      else mret idx
  end.

(** [createSnapshot(state, reason)] at clock [now]; [deepClone] is the
    identity on JSON values. *)
Definition createSnapshot (state : jval) (reason : option string) (now : Z) : IDB Snapshot :=
  let at_ := toISOString now in
  let id := at_ in
  let snapshot := mkSnapshot id at_ (str_or reason "manual") state in
  idbSet (IDB_SNAPSHOT_PREFIX ++ id) (VSnap snapshot);;
  idx ← listSnapshots;
  let idx := mkEntry id at_ (snap_reason snapshot) :: idx in
  idx ← trimIndex (List.length idx) idx;
  idbSet IDB_SNAPSHOT_INDEX_KEY (VIndex idx);;
  mret snapshot.

(** [isStateEmpty(state)] *)
Definition isStateEmpty (state : jval) : bool :=
  no_length (obj_get "products" state) && no_length (obj_get "sales" state)
  && no_length (obj_get "expenses" state) && no_length (obj_get "tables" state).

(** [ensureDailySnapshot(state)] at clock [now]. *)
Definition ensureDailySnapshot (state : jval) (now : Z) : IDB unit :=
  if isStateEmpty state then mret tt else
  meta ← getMeta;
  let today := isoDay now in
  if bool_decide (lastSnapshotDay meta = Some today) then mret tt else
  createSnapshot state (Some "auto-diario") now;;
  setMeta (set_lastSnapshotDay meta today).

(* ================================================================= *)
(** ** Sync client *)

(** The fields of a fetched remote document that the handlers read:
    [updatedAt], [meta.updatedAt], [updatedBy] (strings when present)
    and [state]. *)
Record RemoteDoc := mkRemoteDoc {
  rd_updatedAt : option string;
  rd_metaUpdatedAt : option string;
  rd_updatedBy : option string;
  rd_state : option jval
}.

(** What the GET request yields: 404, another non-ok status, a network
    failure, or a body ([None] when it is not a JSON object). *)
Inductive FetchResult :=
| FNotFound
| FHttpError (status : Z)
| FNetworkError
| FBody (doc : option RemoteDoc).

(** [fetchRemoteSnapshot(cfg)] *)
Definition fetchRemoteSnapshot (r : FetchResult) : IDB (option RemoteDoc) :=
  match r with
  | FNotFound => mret None
  | FHttpError _ | FNetworkError | FBody None => throw
  | FBody (Some d) => mret (Some d)
  end.

(** [isValidStateShape(s)] *)
Definition isValidStateShape (s : option jval) : bool :=
  truthy s && typeof_object s &&
  match s with
  | Some v =>
      is_array (obj_get "products" v) && is_array (obj_get "sales" v)
      && is_array (obj_get "expenses" v) && is_array (obj_get "tables" v)
  | None => false
  end.

(** [x || null] on an optional string. *)
Definition or_null (a : option string) : option string :=
  if str_truthy a then a else None.

(** [a || b] on optional strings. *)
Definition opt_or (a b : option string) : option string :=
  if str_truthy a then a else b.

Inductive PushOutcome :=
| PushNoUrl | PushCancelled | PushError | PushOk (payloadUpdatedAt payloadUpdatedBy : string).

Inductive PullOutcome :=
| PullNoUrl | PullNoData | PullCancelled | PullError | PullOk.

Section Sync.

(** [new Date(s).getTime()], [None] for an Invalid Date. *)
Variable parseDate : string -> option Z.

(** [parseComparableIso(iso)]: [new Date(String(iso || ''))]. *)
Definition parseComparableIso (iso : option string) : option Z :=
  parseDate (str_or iso "").

(** [isoNewerThan(a, b)] *)
Definition isoNewerThan (a b : option string) : bool :=
  match parseComparableIso a, parseComparableIso b with
  | None, None => false
  | Some _, None => true
  | None, Some _ => false
  | Some da, Some db => db <? da
  end.

(** The push confirmation test, on [localUpdatedAt] and [remoteUpdatedAt]:
    [remoteUpdatedAt && isoNewerThan(remoteUpdatedAt, localUpdatedAt)]. *)
Definition pushNeedsConfirm (localUpdatedAt remoteUpdatedAt : option string) : bool :=
  str_truthy remoteUpdatedAt && isoNewerThan remoteUpdatedAt localUpdatedAt.

(** The pull confirmation test:
    [localUpdatedAt && isoNewerThan(localUpdatedAt, remoteUpdatedAt)]. *)
Definition pullNeedsConfirm (localUpdatedAt remoteUpdatedAt : option string) : bool :=
  str_truthy localUpdatedAt && isoNewerThan localUpdatedAt remoteUpdatedAt.

(** [persistCfg()]: the form's configuration is written before anything else. *)
Definition persistCfg (cfg : SyncConfig) : IDB SyncConfig :=
  idbSet IDB_SYNC_KEY (VSync cfg);; mret cfg.

(** The [btnPush] click handler.  [fetched] is the GET response, [ok] the
    answer to [confirm], [put_ok] whether the PUT succeeds, [now] the clock
    and [rnd] the value of [randomId()]. *)
Definition btnPush (cfg : SyncConfig) (fetched : FetchResult) (ok put_ok : bool)
    (now : Z) (rnd : string) : IDB PushOutcome :=
  c ← persistCfg cfg;
  if String.eqb (url c) "" then mret PushNoUrl else
  catch_with (
    remote ← fetchRemoteSnapshot fetched;
    meta ← getMeta;
    let localUpdatedAt := or_null (stateUpdatedAt meta) in
    let remoteUpdatedAt :=
      match remote with
      | Some d => or_null (opt_or (rd_updatedAt d) (rd_metaUpdatedAt d))
      | None => None
      end in
    if pushNeedsConfirm localUpdatedAt remoteUpdatedAt && negb ok then mret PushCancelled else
    dev ← (if str_truthy (deviceId meta) then mret (str_or (deviceId meta) rnd)
           else ensureDeviceId rnd);
    let payloadUpdatedAt := str_or localUpdatedAt (toISOString now) in
    (if put_ok then mret tt else throw);;
    m2 ← getMeta;
    setMeta (set_lastSyncPushAt m2 (toISOString now));;
    mret (PushOk payloadUpdatedAt dev))
    (mret PushError).

(** The [btnPull] click handler; it returns the outcome and the live
    [state] variable after the click. *)
Definition btnPull (cfg : SyncConfig) (fetched : FetchResult) (ok : bool)
    (now : Z) (rnd : string) (state : jval) : IDB (PullOutcome * jval) :=
  c ← persistCfg cfg;
  if String.eqb (url c) "" then mret (PullNoUrl, state) else
  catch_with (
    remote ← fetchRemoteSnapshot fetched;
    match remote with
    | None => mret (PullNoData, state)
    | Some d =>
        if negb (truthy (rd_state d)) then mret (PullNoData, state) else
        if negb (isValidStateShape (rd_state d)) then throw else
        match rd_state d with
        | None => mret (PullNoData, state)
        | Some rstate =>
            meta ← getMeta;
            let localUpdatedAt := or_null (stateUpdatedAt meta) in
            let remoteUpdatedAt := or_null (rd_updatedAt d) in
            if pullNeedsConfirm localUpdatedAt remoteUpdatedAt && negb ok
            then mret (PullCancelled, state) else
            (* state = remote.state *)
            catch_with (
              saveState rstate
                (mkSaveOptions (Some (str_or remoteUpdatedAt (toISOString now)))
                   (opt_or (rd_updatedBy d) (deviceId meta)) (Some "sync-pull")) now rnd;;
              m2 ← getMeta;
              setMeta (set_lastSyncPullAt m2 (toISOString now));;
              mret (PullOk, rstate))
              (mret (PullError, rstate))
        end
    end)
    (mret (PullError, state)).

End Sync.

(* ================================================================= *)
(** ** Domain state and the UI mutations *)

Module Product.
Record t := mk { id : Z; name : string; category : string; cost : Q; price : Q;
                 stock : Z; stockMin : Z }.
End Product.

Module Sale.
Record t := mk { id : Z; at_ : string; productId : Z; qty : Z; unitPrice : Q;
                 unitCost : Q; total : Q; profit : Q; notes : option string }.
End Sale.

Module Expense.
Record t := mk { id : Z; at_ : string; type_ : string; amount : Q; description : option string }.
End Expense.

Module TableSession.
Record t := mk { id : Z; table : Z; players : Z; rate : Q; startAt : string;
                 endAt : option string; active : bool; total : option Q }.
End TableSession.

(** The live domain state. *)
Record State := mkState {
  version : Z;
  business : string * string;
  products : list Product.t;
  sales : list Sale.t;
  expenses : list Expense.t;
  tables : list TableSession.t
}.

Definition set_products (s : State) (ps : list Product.t) : State :=
  mkState (version s) (business s) ps (sales s) (expenses s) (tables s).
Definition set_sales (s : State) (ss : list Sale.t) : State :=
  mkState (version s) (business s) (products s) ss (expenses s) (tables s).
Definition set_tables (s : State) (ts : list TableSession.t) : State :=
  mkState (version s) (business s) (products s) (sales s) (expenses s) ts.

(** [arr.find(x => x.id === id)] *)
Definition find_product (ps : list Product.t) (id : Z) : option Product.t :=
  List.find (fun p => Z.eqb (Product.id p) id) ps.

(** Mutating the object [find] returned: the first product with [id] is
    replaced by [f] of it. *)
Fixpoint update_first (id : Z) (f : Product.t -> Product.t) (ps : list Product.t)
  : list Product.t :=
  match ps with
  | [] => []
  | p :: r => if Z.eqb (Product.id p) id then f p :: r else p :: update_first id f r
  end.

(** What the UI reports; [Rejected] covers every early [return] after a
    toast, and leaves the state untouched. *)
Inductive Outcome := Rejected | Done.

(** The [productForm] submit handler.  Raw inputs: [idField] is
    [Number($id('productId').value || 0)], [cost_in] ... [stockMin_in] are
    [Number()] of the fields, [newId] the value of [uuid()]. *)
Definition productFormSubmit (s : State) (idField : Z) (name_in category : string)
    (cost_in price_in stock_in stockMin_in : option Q) (newId : Z) : Outcome * State :=
  let name := trim name_in in
  let cost := parseMoney cost_in in
  let price := parseMoney price_in in
  let stock := clampInt stock_in 0 1000000 in
  let stockMin := clampInt stockMin_in 0 1000000 in
  if String.eqb name "" then (Rejected, s) else
  if negb (Qle_bool 0 cost) || negb (Qle_bool 0 price) || negb (Qle_bool cost price)
  then (Rejected, s) else
  if negb (Z.eqb idField 0) then
    match find_product (products s) idField with
    | None => (Rejected, s)
    | Some _ =>
        (Done, set_products s
                 (update_first idField
                    (fun p => Product.mk (Product.id p) name category cost price stock stockMin)
                    (products s)))
    end
  else
    (Done, set_products s (products s ++ [Product.mk newId name category cost price stock stockMin])).

(** The [saleForm] submit handler: [productId] is the selected option,
    [qty_in] [Number()] of the quantity field, [newId] [uuid()], [now]
    [nowISO()]. *)
Definition saleFormSubmit (s : State) (productId : Z) (qty_in : option Q) (notes_in : string)
    (newId : Z) (now : string) : Outcome * State :=
  let qty := clampInt qty_in 1 1000000 in
  let notes := trim notes_in in
  match find_product (products s) productId with
  | None => (Rejected, s)
  | Some p =>
      if Product.stock p <? qty then (Rejected, s) else
      let total := (inject_Z qty * Product.price p)%Q in
      let profit := (inject_Z qty * (Product.price p - Product.cost p))%Q in
      let sale := Sale.mk newId now (Product.id p) qty (Product.price p) (Product.cost p)
                    total profit (if String.eqb notes "" then None else Some notes) in
      let s := set_sales s (sales s ++ [sale]) in
      (Done, set_products s
               (update_first (Product.id p)
                  (fun q => Product.mk (Product.id q) (Product.name q) (Product.category q)
                              (Product.cost q) (Product.price q) (Product.stock q - qty)
                              (Product.stockMin q))
                  (products s)))
  end.

(** The [salesTbody] click handler for [data-act="sale-del"]; [ok] is the
    answer to [confirm]. *)
Definition saleDelete (s : State) (id : Z) (ok : bool) : Outcome * State :=
  match List.find (fun x => Z.eqb (Sale.id x) id) (sales s) with
  | None => (Rejected, s)
  | Some _ =>
      if negb ok then (Rejected, s) else
      (Done, set_sales s (List.filter (fun x => negb (Z.eqb (Sale.id x) id)) (sales s)))
  end.

(** The [tableForm] submit handler; [newId] is [uuid()], [now] [nowISO()]. *)
Definition tableFormSubmit (s : State) (table_in players_in rate_in : option Q)
    (newId : Z) (now : string) : Outcome * State :=
  let table := clampInt table_in 1 100 in
  let players := clampInt players_in 1 50 in
  let rate := parseMoney rate_in in
  if Qle_bool rate 0 then (Rejected, s) else
  match List.find (fun t => TableSession.active t && Z.eqb (TableSession.table t) table) (tables s) with
  | Some _ => (Rejected, s)
  | None =>
      (Done, set_tables s (tables s ++
                [TableSession.mk newId table players rate now None true None]))
  end.

(* ================================================================= *)
(** ** Legacy importer (migrateFromLegacyBillarLocalStorageIntoState) *)

(** A legacy numeric field: [None] when null or undefined, otherwise the
    result of [Number()] on it ([None] inside for NaN). *)
Definition lnum := option (option Q).

(** [Number(x)] of a legacy field; [Number(undefined)] is NaN. *)
Definition num (x : lnum) : option Q := match x with Some n => n | None => None end.

(** [a ?? b] *)
Definition coalesce (a b : lnum) : lnum := match a with Some _ => a | None => b end.

Record LegacyProduct := mkLegacyProduct {
  lp_nombre : option string; lp_name : option string; lp_categoria : option string;
  lp_costo : lnum; lp_precio : lnum; lp_stock : lnum; lp_stockMinimo : lnum
}.

Record LegacySale := mkLegacySale {
  ls_cantidad : lnum; ls_qty : lnum; ls_precio : lnum; ls_unitPrice : lnum;
  ls_total : lnum; ls_ganancia : lnum; ls_profit : lnum;
  ls_producto : option string; ls_product : option string;
  ls_hora : option string; ls_at : option string
}.

(** [lt.activa] is [Some false] only when it is the literal [false]. *)
Record LegacyTable := mkLegacyTable {
  lt_activa : option bool; lt_mesa : lnum; lt_jugadores : lnum; lt_tarifa : lnum;
  lt_inicio : option string
}.

Definition emptyState : State :=
  mkState 1 ("M&S - Control Finanzas", "GTQ") [] [] [] [].

(** [isStateEmpty] on the typed state. *)
Definition isStateEmptyT (s : State) : bool :=
  match products s, sales s, expenses s, tables s with
  | [], [], [], [] => true
  | _, _, _, _ => false
  end.

(** The importer's running state: the next [uuid()] index, the new state
    and the [byName] map. *)
Record Acc := mkAcc { acc_next : nat; acc_state : State; acc_byName : gmap string Product.t }.

Section Legacy.

(** [new Date(s).getTime()], [None] for an Invalid Date. *)
Variable parseDate : string -> option Z.
(** The successive values of [uuid()]. *)
Variable uuids : nat -> Z.
(** [Date.now()] while the importer runs. *)
Variable now : Z.

(** [parseLegacyDate(value)] *)
Definition parseLegacyDate (v : option string) : option Z :=
  match v with Some s => parseDate s | None => None end.

Definition importProduct (a : Acc) (lp : LegacyProduct) : Acc :=
  let name := trim (str_or (lp_nombre lp) (str_or (lp_name lp) "")) in
  if String.eqb name "" then a else
  let product := Product.mk (uuids (acc_next a)) name (str_or (lp_categoria lp) "otro")
                   (parseMoney (num (lp_costo lp))) (parseMoney (num (lp_precio lp)))
                   (clampInt (num (lp_stock lp)) 0 1000000)
                   (clampInt (num (lp_stockMinimo lp)) 0 1000000) in
  let s := acc_state a in
  mkAcc (S (acc_next a)) (set_products s (products s ++ [product]))
        (<[normalizeName (Some (Product.name product)) := product]> (acc_byName a)).

Definition importSale (a : Acc) (ls : LegacySale) : Acc :=
  let qty := clampInt (num (coalesce (ls_cantidad ls) (ls_qty ls))) 1 1000000 in
  let unitPrice := parseMoney (num (coalesce (ls_precio ls) (ls_unitPrice ls))) in
  let total := parseMoney (match ls_total ls with
                           | Some n => n
                           | None => Some (unitPrice * inject_Z qty)%Q
                           end) in
  let profit := parseMoney (num (coalesce (ls_ganancia ls) (ls_profit ls))) in
  let name := trim (str_or (ls_producto ls) (str_or (ls_product ls) "")) in
  let atMs := match parseLegacyDate (opt_or (ls_hora ls) (ls_at ls)) with
              | Some t => t | None => now end in
  let '(a, product) :=
    match acc_byName a !! normalizeName (Some name) with
    | Some p => (a, p)
    | None =>
        let unitProfit := if Z.eqb qty 0 then 0%Q else (profit / inject_Z qty)%Q in
        let unitCost := if Qle_bool (unitPrice - unitProfit) 0 then 0%Q
                        else (unitPrice - unitProfit)%Q in
        let p := Product.mk (uuids (acc_next a))
                   (if String.eqb name "" then "Producto (migrado)" else name) "otro"
                   (round2 unitCost) (round2 unitPrice) 0 0 in
        let s := acc_state a in
        (mkAcc (S (acc_next a)) (set_products s (products s ++ [p]))
               (<[normalizeName (Some (Product.name p)) := p]> (acc_byName a)), p)
    end in
  let sale := Sale.mk (uuids (acc_next a)) (toISOString atMs) (Product.id product) qty
                (round2 unitPrice) (round2 (Product.cost product)) (round2 total)
                (round2 profit) (Some "Migrado") in
  let s := acc_state a in
  mkAcc (S (acc_next a)) (set_sales s (sales s ++ [sale])) (acc_byName a).

Definition importTable (a : Acc) (lt : LegacyTable) : Acc :=
  match lt_activa lt with
  | Some false => a
  | _ =>
      let startMs := match parseLegacyDate (lt_inicio lt) with
                     | Some t => t | None => now end in
      let session := TableSession.mk (uuids (acc_next a))
                       (clampInt (num (lt_mesa lt)) 1 1000000)
                       (clampInt (num (lt_jugadores lt)) 1 100)
                       (parseMoney (num (lt_tarifa lt)))
                       (toISOString startMs) None true None in
      let s := acc_state a in
      mkAcc (S (acc_next a)) (set_tables s (tables s ++ [session])) (acc_byName a)
  end.

Definition nonempty {A} (l : option (list A)) : bool :=
  match l with Some (_ :: _) => true | _ => false end.

(** [migrateFromLegacyBillarLocalStorageIntoState(state)]: each legacy
    collection is [None] when its key is missing, unparsable or not an
    array (a failing [localStorage] read gives the same result as all
    three missing).  Returns the state and [migrated]. *)
Definition migrateLegacy (state : State) (legacyProducts : option (list LegacyProduct))
    (legacySales : option (list LegacySale)) (legacyTables : option (list LegacyTable))
  : State * bool :=
  if negb (isStateEmptyT state) then (state, false) else
  if negb (nonempty legacyProducts || nonempty legacySales || nonempty legacyTables)
  then (state, false) else
  let next := mkState (version emptyState) (business state) [] [] [] [] in
  let a := mkAcc 0 next ∅ in
  let a := List.fold_left importProduct (default [] legacyProducts) a in
  let a := List.fold_left importSale (default [] legacySales) a in
  let a := List.fold_left importTable (default [] legacyTables) a in
  (acc_state a, true).

End Legacy.

(* ================================================================= *)
(** ** Sequences of calls and the invariants they are checked against *)

Definition snapKey (id : string) : string := IDB_SNAPSHOT_PREFIX ++ id.

(** The index as [listSnapshots] reads it. *)
Definition indexOf (s : gmap string kvval) : list IndexEntry :=
  match s !! IDB_SNAPSHOT_INDEX_KEY with Some (VIndex l) => l | _ => [] end.

(** A world in which no IndexedDB request fails. *)
Definition nofault (w : world) : Prop := forall k, rfail w k = false /\ wfail w k = false.

(** One [createSnapshot(state, reason)] call at clock [sc_now]. *)
Record SnapCall := mkSnapCall { sc_state : jval; sc_reason : option string; sc_now : Z }.

Definition callId (c : SnapCall) : string := toISOString (sc_now c).
Definition entryOf (c : SnapCall) : IndexEntry :=
  mkEntry (callId c) (callId c) (str_or (sc_reason c) "manual").
Definition bodyOf (c : SnapCall) : Snapshot :=
  mkSnapshot (callId c) (callId c) (str_or (sc_reason c) "manual") (sc_state c).

(** The calls one after the other. *)
Fixpoint createAll (cs : list SnapCall) : IDB unit :=
  match cs with
  | [] => mret tt
  | c :: r => createSnapshot (sc_state c) (sc_reason c) (sc_now c);; createAll r
  end.

(** After the calls [done]: the index lists the newest 20 calls, newest
    first; their bodies are stored, the bodies of older calls are not. *)
Definition SnapInv (done : list SnapCall) (w : world) : Prop :=
  indexOf (store w) = List.map entryOf (List.firstn 20 (List.rev done)) /\
  (forall c, In c done -> In c (List.firstn 20 (List.rev done)) ->
     store w !! snapKey (callId c) = Some (VSnap (bodyOf c))) /\
  (forall c, In c done -> ~ In c (List.firstn 20 (List.rev done)) ->
     store w !! snapKey (callId c) = None).

(** The metadata record as [getMeta] reads it from a store. *)
Definition metaOf (s : gmap string kvval) : Meta :=
  match s !! IDB_META_KEY with Some (VMeta x) => x | _ => emptyMeta end.

(** The four collections [isValidStateShape] requires. *)
Definition requiredCollections : list string := ["products"; "sales"; "expenses"; "tables"].

(** The local calendar day "YYYY-MM-DD" of [ms] in a zone whose
    [getTimezoneOffset()] is [offsetMin] minutes (positive west of UTC):
    what [startOfDay] in [computeKPIs] works with. *)
Definition localDay (offsetMin : Z) (ms : Z) : string := isoDay (ms - offsetMin * 60000).

(** The product invariant: [price >= cost], [stock >= 0], [stockMin >= 0]. *)
Definition productOk (p : Product.t) : bool :=
  Qle_bool (Product.cost p) (Product.price p) && (0 <=? Product.stock p)
  && (0 <=? Product.stockMin p).

(** Its stock part. *)
Definition stockOk (p : Product.t) : bool :=
  (0 <=? Product.stock p) && (0 <=? Product.stockMin p).

(** The table numbers of the active sessions. *)
Definition activeTables (s : State) : list Z :=
  List.map TableSession.table (List.filter TableSession.active (tables s)).

(** [p.stock -= qty] *)
Definition decStock (qty : Z) (q : Product.t) : Product.t :=
  Product.mk (Product.id q) (Product.name q) (Product.category q) (Product.cost q)
    (Product.price q) (Product.stock q - qty) (Product.stockMin q).

(* ================================================================= *)
(** ** Text output: escapeHtml and toCSV *)

(** [s.replaceAll(c, r)] for a one-character pattern [c]. *)
Definition replaceAllChar (c : ascii) (r : string) (s : string) : string :=
  string_of_list_ascii
    (List.flat_map (fun x => if Ascii.eqb x c then list_ascii_of_string r else [x])
       (list_ascii_of_string s)).

(** The double quote character. *)
Definition DQ : ascii := "034".

(** [escapeHtml(s)] *)
Definition escapeHtml (s : string) : string :=
  replaceAllChar "'" "&#039;"
    (replaceAllChar DQ "&quot;"
       (replaceAllChar ">" "&gt;"
          (replaceAllChar "<" "&lt;"
             (replaceAllChar "&" "&amp;" s)))).

(** What [escapeHtml] does to one character. *)
Definition escChar (c : ascii) : list ascii :=
  if Ascii.eqb c "&" then list_ascii_of_string "&amp;"
  else if Ascii.eqb c "<" then list_ascii_of_string "&lt;"
  else if Ascii.eqb c ">" then list_ascii_of_string "&gt;"
  else if Ascii.eqb c DQ then list_ascii_of_string "&quot;"
  else if Ascii.eqb c "'" then list_ascii_of_string "&#039;"
  else [c].

(** The characters the regular expression of [esc] tests for: line feed,
    carriage return, comma and double quote. *)
Definition csvSpecial (c : ascii) : bool :=
  Ascii.eqb c "010" || Ascii.eqb c "013" || Ascii.eqb c "," || Ascii.eqb c DQ.

(** [esc(v)] inside [toCSV], on [String(v ?? '')]. *)
Definition csvEsc (s : string) : string :=
  if List.existsb csvSpecial (list_ascii_of_string s)
  then String DQ (replaceAllChar DQ (String DQ (String DQ EmptyString)) s ++ String DQ EmptyString)
  else s.

(** What the doubling of double quotes in [esc] does to one character. *)
Definition dqChar (c : ascii) : list ascii := if Ascii.eqb c DQ then [DQ; DQ] else [c].

(** [toCSV(rows)] *)
Definition toCSV (rows : list (list string)) : string :=
  String.concat (String "010" EmptyString)
    (List.map (fun r => String.concat "," (List.map csvEsc r)) rows).

(* ================================================================= *)
(** ** Loading the state and restoring a snapshot *)


Section Load.

(** [JSON.parse(raw)], [None] when it throws. *)
Variable jsonParse : string -> option jval.


End Load.

Inductive RestoreOutcome :=
| RestoreIgnored | RestoreCancelled | RestoreNotFound | Restored | RestoreFailed.

(** The [snapshotList] click handler for [data-act="restore"] on the
    button with [data-id = id]; [ok] is the answer to [confirm].  The
    handler has no [try]: when a store request rejects, the rejection
    escapes it, which is [RestoreFailed] here, together with the live
    [state] at that moment. *)
Definition snapshotRestore (id : string) (ok : bool) (state : jval) (now : Z) (rnd : string)
  : IDB (RestoreOutcome * jval) :=
  if String.eqb id "" then mret (RestoreIgnored, state) else
  if negb ok then mret (RestoreCancelled, state) else
  catch_with (
    snap ← idbGet (IDB_SNAPSHOT_PREFIX ++ id);
    match snap with
    | Some (VSnap sn) =>
        if truthy (Some (snap_state sn)) then
          catch_with
            (saveState (snap_state sn) (mkSaveOptions None None (Some "snapshot-restore")) now rnd;;
             mret (Restored, snap_state sn))
            (mret (RestoreFailed, snap_state sn))
        else mret (RestoreNotFound, state)
    | _ => mret (RestoreNotFound, state)
    end)
    (mret (RestoreFailed, state)).

(* ================================================================= *)
(** ** The other list handlers, seeding and the dashboard figures *)

Definition set_expenses (s : State) (es : list Expense.t) : State :=
  mkState (version s) (business s) (products s) (sales s) es (tables s).

(** The [expenseForm] submit handler: [type_] is the selected type,
    [amount_in] [Number()] of the amount field, [desc_in] the description
    field, [newId] [uuid()] and [now] [nowISO()]. *)
Definition expenseFormSubmit (s : State) (type_ : string) (amount_in : option Q)
    (desc_in : string) (newId : Z) (now : string) : Outcome * State :=
  let amount := parseMoney amount_in in
  let description := trim desc_in in
  if String.eqb type_ "" then (Rejected, s) else
  if Qle_bool amount 0 then (Rejected, s) else
  (Done, set_expenses s (expenses s ++
     [Expense.mk newId now type_ amount
        (if String.eqb description "" then None else Some description)])).

(** The [expensesTbody] click handler for [data-act="exp-del"]; [ok] is
    the answer to [confirm].  It does not look the expense up first. *)
Definition expenseDelete (s : State) (id : Z) (ok : bool) : Outcome * State :=
  if negb ok then (Rejected, s) else
  (Done, set_expenses s (List.filter (fun x => negb (Z.eqb (Expense.id x) id)) (expenses s))).

(** The [productsTbody] click handler for [data-act="del"]. *)
Definition productDelete (s : State) (id : Z) (ok : bool) : Outcome * State :=
  match find_product (products s) id with
  | None => (Rejected, s)
  | Some _ =>
      if negb ok then (Rejected, s) else
      (Done, set_products s (List.filter (fun x => negb (Z.eqb (Product.id x) id)) (products s)))
  end.

(** Mutating the session [state.tables.find(x => x.id === id)] returned. *)
Fixpoint update_first_table (id : Z) (f : TableSession.t -> TableSession.t)
    (ts : list TableSession.t) : list TableSession.t :=
  match ts with
  | [] => []
  | t :: r => if Z.eqb (TableSession.id t) id then f t :: r else t :: update_first_table id f r
  end.

(** [t.players += 1] *)
Definition addPlayer (t : TableSession.t) : TableSession.t :=
  TableSession.mk (TableSession.id t) (TableSession.table t) (TableSession.players t + 1)
    (TableSession.rate t) (TableSession.startAt t) (TableSession.endAt t)
    (TableSession.active t) (TableSession.total t).

(** The [table-stop] branch on the session: [nowMs] is [Date.now()],
    [nowIso] [nowISO()], [parseDate] [new Date(t.startAt).getTime()].
    An Invalid Date [startAt] makes [mins] and [total] NaN, written [None]
    here; every reader turns it into 0 ([Number(t.total || 0)]). *)
Definition stopTable (parseDate : string -> option Z) (nowMs : Z) (nowIso : string)
    (t : TableSession.t) : TableSession.t :=
  let total :=
    match parseDate (TableSession.startAt t) with
    | None => None
    | Some started =>
        let mins := Z.max 0 ((nowMs - started) / 60000) in
        Some (round2 (inject_Z mins / inject_Z 60 * TableSession.rate t
                      * inject_Z (TableSession.players t))%Q)
    end in
  TableSession.mk (TableSession.id t) (TableSession.table t) (TableSession.players t)
    (TableSession.rate t) (TableSession.startAt t) (Some nowIso) false total.

(** The [tablesTbody] click handler: [act] is the button's [data-act]. *)
Definition tableClick (parseDate : string -> option Z) (s : State) (act : string) (id : Z)
    (nowMs : Z) (nowIso : string) : Outcome * State :=
  match List.find (fun x => Z.eqb (TableSession.id x) id) (tables s) with
  | None => (Rejected, s)
  | Some _ =>
      if String.eqb act "table-plus" then
        (Done, set_tables s (update_first_table id addPlayer (tables s)))
      else if String.eqb act "table-stop" then
        (Done, set_tables s (update_first_table id (stopTable parseDate nowMs nowIso) (tables s)))
      else (Rejected, s)
  end.

(** The sample data of [seedIfEmpty]. *)
Definition seedProducts : list Product.t :=
  [Product.mk 1 "Coca-Cola 500ml" "bebida" 5%Q 8%Q 24 5;
   Product.mk 2 "Cerveza Nacional" "bebida" 6%Q 12%Q 36 10;
   Product.mk 3 "Papas fritas" "snack" 3%Q 6%Q 15 5].

(** [seedIfEmpty(state)]: [newId] is [uuid()], [nowMs] [Date.now()]. *)
Definition seedIfEmpty (s : State) (newId nowMs : Z) : State :=
  if negb (isStateEmptyT s) then s else
  set_tables (set_products s seedProducts)
    [TableSession.mk newId 1 2 10%Q (toISOString (nowMs - 45 * 60000)) None true None].












(** The expense invariant: [amount > 0]. *)
Definition expenseOk (e : Expense.t) : bool := negb (Qle_bool (Expense.amount e) 0).

(* ================================================================= *)
(** ** Import, clear and the automatic pull on startup *)

(** [emptyState()] as the JSON value that is stored. *)
Definition emptyStateJ : jval :=
  JObj [("version", JNum 1%Q);
        ("business", JObj [("name", JStr "M&S - Control Finanzas"); ("currency", JStr "GTQ")]);
        ("products", JArr []); ("sales", JArr []); ("expenses", JArr []); ("tables", JArr [])].

Inductive ImportOutcome := ImportNoFile | ImportError | Imported.

(** The [fileImport] change handler: [file] is [None] when no file was
    chosen and [Some None] when reading it or [JSON.parse] throws.
    Returns the outcome and the live [state] afterwards. *)
Definition fileImport (file : option (option jval)) (state : jval) (now : Z) (rnd : string)
  : IDB (ImportOutcome * jval) :=
  match file with
  | None => mret (ImportNoFile, state)
  | Some None => mret (ImportError, state)
  | Some (Some parsed) =>
      if negb (truthy (Some parsed) && typeof_object (Some parsed)) then mret (ImportError, state) else
      if negb (is_array (obj_get "products" parsed) && is_array (obj_get "sales" parsed)
               && is_array (obj_get "expenses" parsed) && is_array (obj_get "tables" parsed))
      then mret (ImportError, state) else
      (* state = parsed *)
      catch_with (saveState parsed noOptions now rnd;; mret (Imported, parsed))
                 (mret (ImportError, parsed))
  end.

(** [idbClearAll()]; [clear_ok] is whether [store.clear()] succeeds. *)
Definition idbClearAll (clear_ok : bool) : IDB unit := fun w =>
  if clear_ok then (Some tt, with_store w ∅) else (None, w).

Inductive ClearOutcome := ClearCancelled | ClearFailed | Cleared.

(** The [btnClear] click handler: [ok] is the answer to [confirm],
    [legacy] the legacy [localStorage] key.  The handler has no [try]
    around the store calls; a rejection escapes it ([ClearFailed]).
    Returns the outcome, the live [state] and the legacy key afterwards. *)
Definition btnClear (ok clear_ok : bool) (state : jval) (legacy : option string)
    (now : Z) (rnd : string) : IDB (ClearOutcome * jval * option string) := fun w =>
  if negb ok then (Some (ClearCancelled, state, legacy), w) else
  match idbClearAll clear_ok w with
  | (None, w1) => (Some (ClearFailed, emptyStateJ, legacy), w1)
  | (Some _, w1) =>
      match saveState emptyStateJ (mkSaveOptions None None (Some "clear")) now rnd w1 with
      | (Some _, w2) => (Some (Cleared, emptyStateJ, None), w2)
      | (None, w2) => (Some (ClearFailed, emptyStateJ, None), w2)
      end
  end.

Definition baseSyncConfig : SyncConfig := mkSyncConfig "" "" "" false.

(** [getSyncConfig()]: the stored configuration, or the empty one. *)
Definition getSyncConfig : IDB SyncConfig :=
  cfg ← idbGet IDB_SYNC_KEY;
  mret (match cfg with Some (VSync c) => c | _ => baseSyncConfig end).

(** The configuration [getSyncConfig] reads from a store. *)
Definition syncConfigOf (s : gmap string kvval) : SyncConfig :=
  match s !! IDB_SYNC_KEY with Some (VSync c) => c | _ => baseSyncConfig end.

Inductive AutoOutcome := AutoIdle | AutoNoChange | AutoApplied | AutoError.

Section AutoSync.

Variable parseDate : string -> option Z.

(** The auto-sync block at the end of [init]: [online] is
    [navigator.onLine], [fetched] the GET response.  Returns the outcome
    and the live [state] afterwards. *)
Definition autoSync (online : bool) (fetched : FetchResult) (now : Z) (rnd : string)
    (state : jval) : IDB (AutoOutcome * jval) :=
  catch_with (
    c ← getSyncConfig;
    if auto c && negb (String.eqb (url c) "") && online then
      remote ← fetchRemoteSnapshot fetched;
      meta ← getMeta;
      let localUpdatedAt := or_null (stateUpdatedAt meta) in
      match remote with
      | Some d =>
          let remoteUpdatedAt := or_null (rd_updatedAt d) in
          match rd_state d with
          | Some rs =>
              if truthy (Some rs) && isValidStateShape (Some rs)
                 && isoNewerThan parseDate remoteUpdatedAt localUpdatedAt then
                (* state = remote.state *)
                catch_with
                  (saveState rs (mkSaveOptions (Some (str_or remoteUpdatedAt (toISOString now)))
                                   (opt_or (rd_updatedBy d) (deviceId meta))
                                   (Some "sync-auto-pull")) now rnd;;
                   mret (AutoApplied, rs))
                  (mret (AutoError, rs))
              else mret (AutoNoChange, state)
          | None => mret (AutoNoChange, state)
          end
      | None => mret (AutoNoChange, state)
      end
    else mret (AutoIdle, state))
    (mret (AutoError, state)).

End AutoSync.

(** What a sync push leaves alone: the store outside the sync
    configuration and the metadata, and the [stateUpdatedAt] stamp. *)
Definition pushFrame (w w' : world) : Prop :=
  (forall k, k <> IDB_SYNC_KEY -> k <> IDB_META_KEY -> store w' !! k = store w !! k) /\
  stateUpdatedAt (metaOf (store w')) = stateUpdatedAt (metaOf (store w)).

(* ================================================================= *)
(** * Properties *)

(* ----------------------------------------------------------------- *)
(** ** Timestamp comparison and sync confirmation *)

Section TimestampFacts.

Variable parseDate : string -> option Z.
Hypothesis parseDate_empty : parseDate "" = None.

Lemma parseComparableIso_absent : parseComparableIso parseDate None = None.
Proof. exact parseDate_empty. Qed.

Lemma parseComparableIso_truthy (a : option string) (t : Z) :
  parseComparableIso parseDate a = Some t -> str_truthy a = true.
Proof.
  unfold parseComparableIso, str_or, str_truthy. intros H.
  destruct a as [s|]; [|rewrite parseDate_empty in H; discriminate].
  destruct (String.eqb s "") eqn:E; [|reflexivity].
  rewrite parseDate_empty in H. discriminate.
Qed.

End TimestampFacts.

(** C2: [isoNewerThan] — two absent or unparsable timestamps are "not
    newer" in either direction; a present, parsable timestamp is newer
    than an absent or unparsable one (and not the other way round); two
    parsable timestamps compare by strict [>] on their times. *)
Theorem isoNewerThan_spec (parseDate : string -> option Z)
    (Hempty : parseDate "" = None) (a b : option string) :
  parseComparableIso parseDate None = None /\
  (parseComparableIso parseDate a = None -> parseComparableIso parseDate b = None ->
     isoNewerThan parseDate a b = false /\ isoNewerThan parseDate b a = false) /\
  (forall da, parseComparableIso parseDate a = Some da ->
     parseComparableIso parseDate b = None ->
     isoNewerThan parseDate a b = true /\ isoNewerThan parseDate b a = false) /\
  (forall da db, parseComparableIso parseDate a = Some da ->
     parseComparableIso parseDate b = Some db ->
     isoNewerThan parseDate a b = (db <? da)).
Proof.
  split; [exact (parseComparableIso_absent parseDate Hempty)|].
  unfold isoNewerThan.
  split; [intros Ha Hb; rewrite Ha, Hb; split; reflexivity|].
  split; [intros da Ha Hb; rewrite Ha, Hb; split; reflexivity|].
  intros da db Ha Hb. rewrite Ha, Hb. reflexivity.
Qed.

Lemma isoNewerThan_spec_witness :
  isoParse "" = None /\
  isoNewerThan isoParse (Some "2026-03-10T23:30:00.000Z") None = true.
Proof.
  split; [reflexivity|].
  destruct (isoNewerThan_spec isoParse eq_refl (Some "2026-03-10T23:30:00.000Z") None)
    as [_ [_ [H _]]].
  destruct (H 1773185400000 ltac:(vm_compute; reflexivity) ltac:(vm_compute; reflexivity))
    as [H1 _].
  exact H1.
Defined.

(** C1 (as amended): push asks for confirmation iff the remote timestamp
    [T2] parses and either the local [T1] is absent/unparsable or
    [T1 < T2]; pull asks iff [T1] parses and either [T2] is
    absent/unparsable or [T2 < T1].  Equal parsed times, or both sides
    absent/unparsable, never ask. *)
Theorem sync_confirmation_rule (parseDate : string -> option Z)
    (Hempty : parseDate "" = None) (T1 T2 : option string) :
  (pushNeedsConfirm parseDate T1 T2 = true <->
     exists t2, parseComparableIso parseDate T2 = Some t2 /\
       (parseComparableIso parseDate T1 = None \/
        exists t1, parseComparableIso parseDate T1 = Some t1 /\ t1 < t2)) /\
  (pullNeedsConfirm parseDate T1 T2 = true <->
     exists t1, parseComparableIso parseDate T1 = Some t1 /\
       (parseComparableIso parseDate T2 = None \/
        exists t2, parseComparableIso parseDate T2 = Some t2 /\ t2 < t1)) /\
  (parseComparableIso parseDate T1 = parseComparableIso parseDate T2 ->
     pushNeedsConfirm parseDate T1 T2 = false /\ pullNeedsConfirm parseDate T1 T2 = false).
Proof.
  pose proof (parseComparableIso_truthy parseDate Hempty) as Htr.
  unfold pushNeedsConfirm, pullNeedsConfirm, isoNewerThan.
  destruct (parseComparableIso parseDate T1) as [t1|] eqn:E1;
  destruct (parseComparableIso parseDate T2) as [t2|] eqn:E2.
  - rewrite (Htr _ _ E1), (Htr _ _ E2). simpl.
    split; [|split].
    + split.
      * intros H. apply Z.ltb_lt in H. exists t2. split; [reflexivity|].
        right. exists t1. split; [reflexivity|lia].
      * intros [t [Ht [Hn|[t' [Ht' Hlt]]]]]; [discriminate|].
        injection Ht as <-. injection Ht' as <-. apply Z.ltb_lt. exact Hlt.
    + split.
      * intros H. apply Z.ltb_lt in H. exists t1. split; [reflexivity|].
        right. exists t2. split; [reflexivity|lia].
      * intros [t [Ht [Hn|[t' [Ht' Hlt]]]]]; [discriminate|].
        injection Ht as <-. injection Ht' as <-. apply Z.ltb_lt. exact Hlt.
    + intros Heq. injection Heq as <-. rewrite Z.ltb_irrefl. split; reflexivity.
  - rewrite (Htr _ _ E1). simpl.
    split; [|split].
    + rewrite andb_false_r. split; [discriminate|].
      intros [t [Ht _]]; discriminate.
    + split; [intros _; exists t1; split; [reflexivity|left; reflexivity]|reflexivity].
    + intros Heq; discriminate.
  - rewrite (Htr _ _ E2). simpl.
    split; [|split].
    + split; [intros _; exists t2; split; [reflexivity|left; reflexivity]|reflexivity].
    + rewrite andb_false_r. split; [discriminate|].
      intros [t [Ht _]]; discriminate.
    + intros Heq; discriminate.
  - rewrite !andb_false_r. split; [|split].
    + split; [discriminate|intros [t [Ht _]]; discriminate].
    + split; [discriminate|intros [t [Ht _]]; discriminate].
    + intros _; split; reflexivity.
Qed.

Lemma sync_confirmation_rule_witness :
  isoParse "" = None /\
  pushNeedsConfirm isoParse (Some "2026-03-10T23:30:00.000Z") (Some "2026-03-11T00:30:00.000Z")
    = true.
Proof.
  split; [reflexivity|].
  apply (proj2 (proj1 (sync_confirmation_rule isoParse eq_refl
           (Some "2026-03-10T23:30:00.000Z") (Some "2026-03-11T00:30:00.000Z")))).
  exists 1773189000000. split; [vm_compute; reflexivity|].
  right. exists 1773185400000. split; [vm_compute; reflexivity|lia].
Defined.

(** C1 as stated fails: with no local [stateUpdatedAt] and a remote
    [updatedAt], push asks for confirmation; with a local timestamp and
    no remote one, pull asks. *)
Lemma sync_confirmation_missing_side :
  pushNeedsConfirm isoParse None (Some "2026-03-10T23:30:00.000Z") = true /\
  pullNeedsConfirm isoParse (Some "2026-03-10T23:30:00.000Z") None = true.
Proof. split; vm_compute; reflexivity. Qed.

(* ----------------------------------------------------------------- *)
(** ** The monad in a world without faults *)

Lemma nofault_with_store (w : world) (s : gmap string kvval) :
  nofault w -> nofault (with_store w s).
Proof. intros H k. exact (H k). Qed.

Lemma bind_idbSet {B} (w : world) k v (f : unit -> IDB B) :
  nofault w -> (idbSet k v ≫= f) w = f tt (with_store w (<[k := v]> (store w))).
Proof.
  intros H. unfold mbind, IDB_bind, idbSet. rewrite (proj2 (H k)). reflexivity.
Qed.

Lemma bind_idbGet {B} (w : world) k (f : option kvval -> IDB B) :
  nofault w -> (idbGet k ≫= f) w = f (store w !! k) w.
Proof.
  intros H. unfold mbind, IDB_bind, idbGet. rewrite (proj1 (H k)). reflexivity.
Qed.

Lemma try_delete_nofault (w : world) k :
  nofault w -> try_ignore (idbDelete k) w = (Some tt, with_store w (delete k (store w))).
Proof.
  intros H. unfold try_ignore, catch_with, idbDelete. rewrite (proj2 (H k)). reflexivity.
Qed.

Lemma bind_try_delete {B} (w : world) k (f : unit -> IDB B) :
  nofault w -> (try_ignore (idbDelete k) ≫= f) w = f tt (with_store w (delete k (store w))).
Proof.
  intros H. unfold mbind at 1, IDB_bind at 1. rewrite (try_delete_nofault w k H). reflexivity.
Qed.

(* ----------------------------------------------------------------- *)
(** ** Keys and ids *)

Lemma snapKey_inj (a b : string) : snapKey a = snapKey b -> a = b.
Proof. unfold snapKey, IDB_SNAPSHOT_PREFIX. intros H. cbn in H. inversion H as [H1]. exact H1. Qed.

Lemma snapKey_not_index (a : string) : snapKey a <> IDB_SNAPSHOT_INDEX_KEY.
Proof. unfold snapKey, IDB_SNAPSHOT_PREFIX, IDB_SNAPSHOT_INDEX_KEY. cbn. discriminate. Qed.

Lemma append_nonempty (a : string) (c : ascii) (b : string) :
  (a ++ String c b)%string <> ""%string.
Proof. destruct a; discriminate. Qed.

Lemma toISOString_nonempty (n : Z) : String.eqb (toISOString n) "" = false.
Proof.
  apply String.eqb_neq. unfold toISOString. cbn [app string_of_list_ascii].
  apply append_nonempty.
Qed.

(* ----------------------------------------------------------------- *)
(** ** Trimming the index *)

Lemma trimIndex_keep (fuel : nat) (l : list IndexEntry) (w : world) :
  (List.length l <= 20)%nat -> trimIndex fuel l w = (Some l, w).
Proof.
  intros Hl. destruct fuel as [|f]; [reflexivity|]. cbn [trimIndex].
  replace (Nat.ltb MAX_SNAPSHOTS (List.length l)) with false
    by (symmetry; apply Nat.ltb_ge; unfold MAX_SNAPSHOTS; lia).
  reflexivity.
Qed.

Lemma trimIndex_pop (fuel : nat) (l : list IndexEntry) (x : IndexEntry) (w : world) :
  nofault w -> List.length l = 20%nat -> String.eqb (ie_id x) "" = false ->
  trimIndex (S fuel) (l ++ [x]) w =
    (Some l, with_store w (delete (IDB_SNAPSHOT_PREFIX ++ ie_id x)%string (store w))).
Proof.
  intros Hw Hl Hx. cbn [trimIndex].
  replace (Nat.ltb MAX_SNAPSHOTS (List.length (l ++ [x]))) with true
    by (symmetry; apply Nat.ltb_lt; rewrite List.length_app; cbn; unfold MAX_SNAPSHOTS; lia).
  rewrite List.rev_unit, List.rev_involutive, Hx. cbn [negb].
  rewrite (bind_try_delete w _ _ Hw).
  apply trimIndex_keep. lia.
Qed.

(* ----------------------------------------------------------------- *)
(** ** One createSnapshot call *)

Lemma bind_ok {A B} (c : IDB A) (f : A -> IDB B) (w : world) a w' :
  c w = (Some a, w') -> (c ≫= f) w = f a w'.
Proof. intros H. unfold mbind, IDB_bind. rewrite H. reflexivity. Qed.

Lemma bind_listSnapshots {B} (w : world) (f : list IndexEntry -> IDB B) :
  nofault w -> (listSnapshots ≫= f) w = f (indexOf (store w)) w.
Proof.
  intros H. unfold listSnapshots, mbind, IDB_bind, idbGet, mret, IDB_ret.
  rewrite (proj1 (H _)). reflexivity.
Qed.

Lemma NoDup_map_take_split (L : list SnapCall) (x : SnapCall) :
  NoDup (List.map callId L) -> L !! 19%nat = Some x ->
  callId x ∉ List.map callId (List.firstn 19 L).
Proof.
  intros Hnd Hx.
  rewrite <- (take_drop 20 L) in Hnd. rewrite (take_S_r L 19 x Hx) in Hnd.
  rewrite !List.map_app in Hnd.
  apply NoDup_app in Hnd as [Hnd _]. apply NoDup_app in Hnd as [_ [Hdis _]].
  intros Hin. apply (Hdis _ Hin). cbn. left.
Qed.

Lemma createSnapshot_step (done : list SnapCall) (c : SnapCall) (w : world) :
  nofault w -> SnapInv done w -> NoDup (List.map callId (done ++ [c])) ->
  store w !! snapKey (callId c) = None ->
  exists w', createSnapshot (sc_state c) (sc_reason c) (sc_now c) w = (Some (bodyOf c), w') /\
    nofault w' /\ SnapInv (done ++ [c]) w' /\
    (forall k, k <> snapKey (callId c) -> k <> IDB_SNAPSHOT_INDEX_KEY ->
       store w !! k = None -> store w' !! k = None).
Proof.
  intros Hw [Hidx [Hin Hout]] Hnd Hfresh.
  rewrite List.map_app in Hnd. apply NoDup_app in Hnd as [HndD [Hdis _]].
  assert (HcD : forall d, In d done -> callId d <> callId c).
  { intros d Hd Heq. apply (Hdis (callId d)).
    - apply list_elem_of_In. apply List.in_map. exact Hd.
    - rewrite Heq. left. }
  set (L := List.rev done) in *.
  assert (HndL : NoDup (List.map callId L)).
  { unfold L. rewrite List.map_rev. apply NoDup_ListNoDup, List.NoDup_rev, NoDup_ListNoDup. exact HndD. }
  assert (HinL : forall d, In d L <-> In d done).
  { intros d. unfold L. split; [apply List.in_rev|apply List.in_rev]. }
  assert (Hnew : List.firstn 20 (List.rev (done ++ [c])) = c :: List.firstn 19 L).
  { rewrite List.rev_unit. reflexivity. }
  set (w1 := with_store w (<[snapKey (callId c) := VSnap (bodyOf c)]> (store w))).
  assert (Hw1 : nofault w1) by (apply nofault_with_store; exact Hw).
  assert (Hidx1 : indexOf (store w1) = List.map entryOf (List.firstn 20 L)).
  { unfold w1, indexOf. cbn [store with_store]. rewrite lookup_insert_ne.
    - exact Hidx.
    - apply snapKey_not_index. }
  unfold createSnapshot. cbv zeta.
  rewrite (bind_idbSet w _ _ _ Hw). fold (snapKey (callId c)).
  change (mkSnapshot (toISOString (sc_now c)) (toISOString (sc_now c))
            (str_or (sc_reason c) "manual") (sc_state c)) with (bodyOf c).
  fold w1. rewrite (bind_listSnapshots w1 _ Hw1). rewrite Hidx1.
  change (mkEntry (toISOString (sc_now c)) (toISOString (sc_now c))
            (snap_reason (bodyOf c))) with (entryOf c).
  destruct (Nat.lt_ge_cases (List.length L) 20) as [Hshort|Hlong].
  - (* fewer than 20 earlier snapshots: nothing is trimmed *)
    rewrite (List.firstn_all2 (n:=20) L) in * by lia.
    rewrite (List.firstn_all2 (n:=19) L) in Hnew by lia.
    rewrite (bind_ok _ _ w1 (entryOf c :: List.map entryOf L) w1)
      by (apply trimIndex_keep; cbn; rewrite List.length_map; lia).
    rewrite (bind_idbSet w1 _ _ _ Hw1).
    eexists. split; [reflexivity|]. split; [apply nofault_with_store; exact Hw1|].
    split; [split; [|split]|].
    + unfold indexOf. cbn [store with_store]. rewrite lookup_insert_eq, Hnew. reflexivity.
    + intros d Hd Hd20. cbn [store with_store w1].
      rewrite lookup_insert_ne by (apply not_eq_sym, snapKey_not_index).
      apply List.in_app_or in Hd as [Hd|[<-|[]]].
      * rewrite lookup_insert_ne.
        -- apply Hin; [exact Hd|]. apply HinL. exact Hd.
        -- intros Hk. apply snapKey_inj in Hk. apply (HcD d Hd). symmetry. exact Hk.
      * apply lookup_insert_eq.
    + intros d Hd Hd20. exfalso. apply Hd20. rewrite Hnew.
      apply List.in_app_or in Hd as [Hd|[<-|[]]]; [right; apply HinL; exact Hd|left; reflexivity].
    + intros k Hk1 Hk2 Hk. cbn [store with_store w1].
      rewrite lookup_insert_ne by (apply not_eq_sym; exact Hk2).
      rewrite lookup_insert_ne by (apply not_eq_sym; exact Hk1). exact Hk.
  - (* 20 earlier snapshots listed: the oldest listed one is trimmed *)
    destruct (lookup_lt_is_Some_2 L 19 ltac:(lia)) as [x Hx].
    assert (HxL : In x L) by (apply list_elem_of_In; eapply list_elem_of_lookup_2; exact Hx).
    assert (Hxdone : In x done) by (apply HinL; exact HxL).
    assert (Htake : List.firstn 20 L = (List.firstn 19 L ++ [x])%list) by (exact (take_S_r L 19 x Hx)).
    assert (Hxnot : callId x ∉ List.map callId (List.firstn 19 L))
      by (apply NoDup_map_take_split; assumption).
    set (w2 := with_store w1 (delete (IDB_SNAPSHOT_PREFIX ++ ie_id (entryOf x))%string (store w1))).
    rewrite Htake, List.map_app.
    rewrite (bind_ok _ _ w1 (entryOf c :: List.map entryOf (List.firstn 19 L)) w2).
    2:{ change (List.map entryOf [x]) with [entryOf x].
        rewrite app_comm_cons, List.length_app.
        assert (Hl19 : List.length (entryOf c :: List.map entryOf (List.firstn 19 L)) = 20%nat)
          by (cbn [List.length]; rewrite List.length_map, List.length_firstn; lia).
        rewrite Hl19. cbn [List.length Nat.add].
        apply trimIndex_pop; [exact Hw1|exact Hl19|apply toISOString_nonempty]. }
    assert (Hw2 : nofault w2) by (apply nofault_with_store; exact Hw1).
    rewrite (bind_idbSet w2 _ _ _ Hw2).
    fold (snapKey (callId x)) in w2.
    eexists. split; [reflexivity|]. split; [apply nofault_with_store; exact Hw2|].
    assert (Hlook : forall k, k <> IDB_SNAPSHOT_INDEX_KEY ->
      store (with_store w2 (<[IDB_SNAPSHOT_INDEX_KEY := VIndex (entryOf c :: List.map entryOf
               (List.firstn 19 L))]> (store w2))) !! k =
      if decide (k = snapKey (callId x)) then None
      else if decide (k = snapKey (callId c)) then Some (VSnap (bodyOf c)) else store w !! k).
    { intros k Hk. cbn [store with_store w2 w1].
      rewrite lookup_insert_ne by (apply not_eq_sym; exact Hk).
      case_decide as E1; [subst k; apply lookup_delete_eq|].
      rewrite lookup_delete_ne by (apply not_eq_sym; exact E1).
      case_decide as E2; [subst k; apply lookup_insert_eq|].
      rewrite lookup_insert_ne by (apply not_eq_sym; exact E2). reflexivity. }
    split; [split; [|split]|].
    + unfold indexOf. cbn [store with_store]. rewrite lookup_insert_eq, Hnew. reflexivity.
    + intros d Hd Hd20. rewrite (Hlook _ (snapKey_not_index _)). rewrite Hnew in Hd20.
      case_decide as E1.
      * exfalso. apply snapKey_inj in E1.
        destruct Hd20 as [<-|Hd20].
        -- apply (HcD x Hxdone). symmetry. exact E1.
        -- apply Hxnot. rewrite <- E1. apply list_elem_of_In. apply List.in_map. exact Hd20.
      * case_decide as E2; [apply snapKey_inj in E2|].
        -- apply List.in_app_or in Hd as [Hd|[<-|[]]]; [|reflexivity].
           exfalso. apply (HcD d Hd). exact E2.
        -- destruct Hd20 as [<-|Hd20]; [exfalso; apply E2; reflexivity|].
           apply Hin.
           ++ apply HinL. rewrite <- (take_drop 19 L). apply List.in_or_app. left. exact Hd20.
           ++ rewrite Htake. apply List.in_or_app. left. exact Hd20.
    + intros d Hd Hd20. rewrite (Hlook _ (snapKey_not_index _)). rewrite Hnew in Hd20.
      case_decide as E1; [reflexivity|].
      case_decide as E2.
      * exfalso. apply Hd20. left. apply snapKey_inj in E2.
        apply List.in_app_or in Hd as [Hd|[<-|[]]]; [|reflexivity].
        exfalso. apply (HcD d Hd). exact E2.
      * apply List.in_app_or in Hd as [Hd|[<-|[]]]; [|exfalso; apply E2; reflexivity].
        apply Hout; [exact Hd|]. rewrite Htake. intros Hd'.
        apply List.in_app_or in Hd' as [Hd'|[<-|[]]].
        -- apply Hd20. right. exact Hd'.
        -- apply E1. reflexivity.
    + intros k Hk1 Hk2 Hk. rewrite (Hlook _ Hk2).
      case_decide; [reflexivity|]. case_decide; [contradiction|exact Hk].
Qed.

Lemma createAll_inv (r : list SnapCall) : forall (done : list SnapCall) (w : world),
  nofault w -> SnapInv done w -> NoDup (List.map callId (done ++ r)) ->
  (forall c, In c r -> store w !! snapKey (callId c) = None) ->
  exists w', createAll r w = (Some tt, w') /\ nofault w' /\ SnapInv (done ++ r) w'.
Proof.
  induction r as [|c r IH]; intros done w Hw Hinv Hnd Hfr.
  - exists w. rewrite List.app_nil_r. split; [reflexivity|split; assumption].
  - replace (done ++ c :: r) with ((done ++ [c]) ++ r) in *
      by (rewrite <- List.app_assoc; reflexivity).
    pose proof Hnd as Hnd'. rewrite List.map_app in Hnd'.
    apply NoDup_app in Hnd' as [Hnd1 [Hdis _]].
    destruct (createSnapshot_step done c w Hw Hinv Hnd1 (Hfr c (or_introl eq_refl)))
      as [w1 [Hrun [Hw1 [Hinv1 Hframe]]]].
    destruct (IH (done ++ [c]) w1 Hw1 Hinv1 Hnd) as [w2 [Hrun2 [Hw2 Hinv2]]].
    + intros c' Hc'. apply Hframe.
      * intros Hk. apply snapKey_inj in Hk. apply (Hdis (callId c)).
        -- apply list_elem_of_In. rewrite List.map_app. apply List.in_or_app. right. left. reflexivity.
        -- apply list_elem_of_In. rewrite <- Hk. apply List.in_map. exact Hc'.
      * apply snapKey_not_index.
      * apply Hfr. right. exact Hc'.
    + exists w2. split; [|split; assumption].
      cbn [createAll]. rewrite (bind_ok _ _ w _ w1 Hrun). exact Hrun2.
Qed.

(** C3: from a store with no snapshot index and none of the calls'
    bodies, any sequence of [createSnapshot] calls with distinct ids
    leaves an index of length [min N 20] listing the newest 20 calls,
    newest first (the last call at the front); the bodies of those calls
    are retrievable and the bodies of every older call are deleted.  As
    the statement holds for every sequence, it holds after each call. *)
Theorem createSnapshot_retention (cs : list SnapCall) (w : world) :
  nofault w -> store w !! IDB_SNAPSHOT_INDEX_KEY = None ->
  (forall c, In c cs -> store w !! snapKey (callId c) = None) ->
  NoDup (List.map callId cs) ->
  exists w', createAll cs w = (Some tt, w') /\
    indexOf (store w') = List.map entryOf (List.firstn 20 (List.rev cs)) /\
    List.length (indexOf (store w')) = Nat.min (List.length cs) 20 /\
    (forall cs0 c, cs = cs0 ++ [c] -> List.hd_error (indexOf (store w')) = Some (entryOf c)) /\
    (forall c, In c cs -> In c (List.firstn 20 (List.rev cs)) ->
       store w' !! snapKey (callId c) = Some (VSnap (bodyOf c))) /\
    (forall c, In c cs -> ~ In c (List.firstn 20 (List.rev cs)) ->
       store w' !! snapKey (callId c) = None).
Proof.
  intros Hw Hidx Hfr Hnd.
  assert (Hinv0 : SnapInv [] w).
  { split; [unfold indexOf; rewrite Hidx; reflexivity|]. split; intros c [] . }
  destruct (createAll_inv cs [] w Hw Hinv0 Hnd Hfr) as [w' [Hrun [_ [Hix [Hin Hout]]]]].
  rewrite List.app_nil_l in Hix, Hin, Hout.
  exists w'. split; [exact Hrun|].
  split; [exact Hix|].
  split; [rewrite Hix, List.length_map, List.length_firstn, List.length_rev; apply Nat.min_comm|].
  split.
  { intros cs0 c Hcs. rewrite Hix, Hcs, List.rev_unit. reflexivity. }
  split; [exact Hin|exact Hout].
Qed.

Lemma createSnapshot_retention_witness :
  let cs := [mkSnapCall (JObj []) None 1773185400000;
             mkSnapCall (JObj []) (Some "auto-diario") 1773185401000;
             mkSnapCall (JObj []) (Some "manual") 1773185402000] in
  let w := mkWorld ∅ (fun _ => false) (fun _ => false) in
  exists w', createAll cs w = (Some tt, w') /\
    List.length (indexOf (store w')) = Nat.min (List.length cs) 20.
Proof.
  intros cs w.
  destruct (createSnapshot_retention cs w)
    as [w' [Hrun [_ [Hlen _]]]].
  - intros k. split; reflexivity.
  - reflexivity.
  - intros c _. reflexivity.
  - apply (bool_decide_unpack _). vm_compute. reflexivity.
  - exists w'. split; [exact Hrun|exact Hlen].
Defined.

(* ----------------------------------------------------------------- *)
(** ** saveState *)

Lemma state_key_ne_meta : IDB_STATE_KEY <> IDB_META_KEY.
Proof. discriminate. Qed.

(** C6: [saveState] writes the state document first: if that write fails
    the save fails and nothing changes; if it succeeds the save succeeds
    whatever happens to the metadata (a failing metadata read or write
    leaves the metadata as it was).  When the metadata is written,
    [stateUpdatedAt], [stateUpdatedBy] and [stateUpdatedSource] come from
    the options, defaulting to the current time, the device id (the
    stored one, or a fresh [randomId()] that is stored too) and "local";
    the other metadata fields are kept. *)
Theorem saveState_spec (state : jval) (options : SaveOptions) (now : Z) (rnd : string)
    (w : world) :
  let r := saveState state options now rnd w in
  (wfail w IDB_STATE_KEY = true -> r = (None, w)) /\
  (wfail w IDB_STATE_KEY = false ->
     fst r = Some tt /\
     store (snd r) !! IDB_STATE_KEY = Some (VState state) /\
     (forall k, k <> IDB_STATE_KEY -> k <> IDB_META_KEY -> store (snd r) !! k = store w !! k) /\
     ((rfail w IDB_META_KEY = true \/ wfail w IDB_META_KEY = true) ->
        store (snd r) !! IDB_META_KEY = store w !! IDB_META_KEY) /\
     (rfail w IDB_META_KEY = false -> wfail w IDB_META_KEY = false ->
        let m := metaOf (store w) in
        let dev := str_or (deviceId m) rnd in
        exists m', store (snd r) !! IDB_META_KEY = Some (VMeta m') /\
          deviceId m' = Some dev /\
          stateUpdatedAt m' = Some (str_or (opt_updatedAt options) (toISOString now)) /\
          stateUpdatedBy m' = Some (str_or (opt_updatedBy options) dev) /\
          stateUpdatedSource m' = Some (str_or (opt_source options) "local") /\
          lastSnapshotDay m' = lastSnapshotDay m /\
          legacyBillarMigratedAt m' = legacyBillarMigratedAt m /\
          lastSyncPushAt m' = lastSyncPushAt m /\ lastSyncPullAt m' = lastSyncPullAt m)).
Proof.
  cbv zeta. unfold saveState, try_ignore, catch_with, getMeta, setMeta, idbSet, idbGet,
    mbind, IDB_bind, mret, IDB_ret.
  destruct (wfail w IDB_STATE_KEY) eqn:Hs.
  { split; [intros _; reflexivity|intros H; discriminate H]. }
  split; [intros H; discriminate H|intros _]. cbn [rfail wfail store with_store].
  assert (Hmeta : <[IDB_STATE_KEY:=VState state]> (store w) !! IDB_META_KEY =
                  store w !! IDB_META_KEY)
    by (apply lookup_insert_ne; exact state_key_ne_meta).
  destruct (rfail w IDB_META_KEY) eqn:Hr; cbn [fst snd store with_store].
  - split; [reflexivity|]. split; [apply lookup_insert_eq|].
    split; [intros k Hk _; apply lookup_insert_ne; auto|].
    split; [intros _; exact Hmeta|intros H; discriminate H].
  - rewrite Hmeta. cbn [rfail wfail store with_store].
    destruct (wfail w IDB_META_KEY) eqn:Hw; cbn [fst snd store with_store].
    + split; [reflexivity|]. split; [apply lookup_insert_eq|].
      split; [intros k Hk _; apply lookup_insert_ne; auto|].
      split; [intros _; exact Hmeta|intros _ H; discriminate H].
    + split; [reflexivity|].
      split; [rewrite lookup_insert_ne by (apply not_eq_sym, state_key_ne_meta);
              apply lookup_insert_eq|].
      split.
      { intros k Hk1 Hk2. rewrite lookup_insert_ne by auto. apply lookup_insert_ne; auto. }
      split; [intros [H|H]; discriminate H|].
      intros _ _. eexists. split; [apply lookup_insert_eq|].
      unfold metaOf. repeat split.
Qed.

Lemma saveState_spec_witness :
  let w := mkWorld ∅ (fun _ => false) (fun k => String.eqb k IDB_META_KEY) in
  fst (saveState (JObj []) noOptions 1773185400000 "dev-1" w) = Some tt /\
  store (snd (saveState (JObj []) noOptions 1773185400000 "dev-1" w)) !! IDB_STATE_KEY
    = Some (VState (JObj [])).
Proof.
  intros w.
  destruct (saveState_spec (JObj []) noOptions 1773185400000 "dev-1" w) as [_ H].
  destruct (H eq_refl) as [H1 [H2 _]]. split; [exact H1|exact H2].
Defined.

(* ----------------------------------------------------------------- *)
(** ** Pull of a document without the required collections *)

Lemma isValidStateShape_missing (s : jval) :
  existsb (fun k => negb (is_array (obj_get k s))) requiredCollections = true ->
  isValidStateShape (Some s) = false.
Proof.
  unfold isValidStateShape, requiredCollections. cbn [existsb].
  destruct (is_array (obj_get "products" s)), (is_array (obj_get "sales" s)),
    (is_array (obj_get "expenses" s)), (is_array (obj_get "tables" s));
    cbn; intros H; try discriminate H; apply andb_false_r.
Qed.

(** C5: a pull whose fetched document has a (truthy) [state] lacking an
    array under any of products, sales, expenses, tables aborts with an
    error status before any write of the state or the metadata: the live
    state is untouched and every key of the store except the sync
    configuration (which [persistCfg] saves before the pull starts) keeps
    its value, so the state document and the metadata record (with
    [lastSyncPullAt]) are unchanged. *)
Theorem pull_rejects_invalid_shape (parseDate : string -> option Z) (cfg : SyncConfig)
    (d : RemoteDoc) (ok : bool) (now : Z) (rnd : string) (state : jval) (w : world)
    (s : jval) :
  rd_state d = Some s -> truthy (Some s) = true ->
  existsb (fun k => negb (is_array (obj_get k s))) requiredCollections = true ->
  let r := btnPull parseDate cfg (FBody (Some d)) ok now rnd state w in
  (forall k, k <> IDB_SYNC_KEY -> store (snd r) !! k = store w !! k) /\
  (wfail w IDB_SYNC_KEY = false -> url cfg <> "" -> fst r = Some (PullError, state)) /\
  (forall o st, fst r = Some (o, st) -> st = state /\ o <> PullOk).
Proof.
  intros Hd Ht Hmiss. pose proof (isValidStateShape_missing s Hmiss) as Hv.
  cbv zeta. unfold btnPull, persistCfg, idbSet, catch_with, mbind, IDB_bind, mret, IDB_ret.
  destruct (wfail w IDB_SYNC_KEY) eqn:Hs; cbn [fst snd].
  - split; [reflexivity|]. split; [intros H; discriminate H|intros o st H; discriminate H].
  - cbn [url]. destruct (String.eqb (url cfg) "") eqn:Hu; cbn [fst snd store with_store].
    + split; [intros k Hk; apply lookup_insert_ne; auto|].
      split; [intros _ Hne; apply String.eqb_eq in Hu; contradiction|].
      intros o st H. injection H as <- <-. split; [reflexivity|discriminate].
    + unfold fetchRemoteSnapshot, throw, mret, IDB_ret. cbn beta iota. rewrite Hd, Ht, Hv. cbn [negb throw fst snd store with_store].
      split; [intros k Hk; apply lookup_insert_ne; auto|].
      split; [intros _ _; reflexivity|].
      intros o st H. injection H as <- <-. split; [reflexivity|discriminate].
Qed.

Lemma pull_rejects_invalid_shape_witness :
  let d := mkRemoteDoc (Some "2026-03-10T23:30:00.000Z") None (Some "dev-2")
             (Some (JObj [("products", JArr []); ("sales", JArr [])])) in
  let w := mkWorld ∅ (fun _ => false) (fun _ => false) in
  fst (btnPull isoParse (mkSyncConfig "https://dav.example/app.json" "" "" false)
         (FBody (Some d)) true 1773185400000 "dev-1" (JObj []) w) = Some (PullError, JObj []).
Proof.
  intros d w.
  destruct (pull_rejects_invalid_shape isoParse (mkSyncConfig "https://dav.example/app.json" "" "" false)
              d true 1773185400000 "dev-1" (JObj []) w
              (JObj [("products", JArr []); ("sales", JArr [])]) eq_refl eq_refl
              ltac:(vm_compute; reflexivity)) as [_ [H _]].
  apply H; [reflexivity|discriminate].
Defined.

(* ----------------------------------------------------------------- *)
(** ** ensureDailySnapshot *)

Lemma ensureDaily_empty_noop (state : jval) (now : Z) (w : world) :
  isStateEmpty state = true -> ensureDailySnapshot state now w = (Some tt, w).
Proof. intros H. unfold ensureDailySnapshot. rewrite H. reflexivity. Qed.

Lemma ensureDaily_same_day_noop (state : jval) (now : Z) (w : world) :
  rfail w IDB_META_KEY = false ->
  lastSnapshotDay (metaOf (store w)) = Some (isoDay now) ->
  ensureDailySnapshot state now w = (Some tt, w).
Proof.
  intros Hr Hd. unfold ensureDailySnapshot.
  destruct (isStateEmpty state); [reflexivity|].
  unfold getMeta, idbGet, mbind, IDB_bind, mret, IDB_ret. rewrite Hr. cbn beta iota.
  unfold metaOf in Hd. rewrite bool_decide_eq_true_2 by exact Hd. reflexivity.
Qed.

(** C4 (divergence): the day [ensureDailySnapshot] keys on is the UTC day
    [toISOString().slice(0, 10)], not the local calendar day.  In a zone
    at UTC-6, 17:30 and 18:30 local time on 10 March 2026 fall on two UTC
    days, so two calls on the same local day take two "auto-diario"
    snapshots. *)
Theorem ensureDaily_keys_on_utc_day :
  let st := JObj [("products", JArr [JNull])] in
  let w0 := mkWorld ∅ (fun _ => false) (fun _ => false) in
  let w1 := snd (ensureDailySnapshot st 1773185400000 w0) in
  let w2 := snd (ensureDailySnapshot st 1773189000000 w1) in
  localDay 360 1773185400000 = localDay 360 1773189000000 /\
  isoDay 1773185400000 <> isoDay 1773189000000 /\
  List.map ie_reason (indexOf (store w2)) = ["auto-diario"; "auto-diario"]%string.
Proof.
  intros st w0 w1 w2. split; [vm_compute; reflexivity|].
  split; [vm_compute; discriminate|vm_compute; reflexivity].
Qed.

(* ----------------------------------------------------------------- *)
(** ** Recording a sale *)

Lemma find_product_id (ps : list Product.t) (id : Z) (p : Product.t) :
  find_product ps id = Some p -> Product.id p = id.
Proof.
  unfold find_product. intros H. apply List.find_some in H as [_ H]. now apply Z.eqb_eq.
Qed.

Lemma find_update_first (ps : list Product.t) (id : Z) (p : Product.t)
    (f : Product.t -> Product.t) :
  (forall q, Product.id (f q) = Product.id q) ->
  find_product ps id = Some p ->
  find_product (update_first (Product.id p) f ps) id = Some (f p).
Proof.
  intros Hf H. pose proof (find_product_id _ _ _ H) as Hid. rewrite Hid.
  induction ps as [|q r IH]; [discriminate H|].
  unfold find_product in *. cbn [List.find update_first] in *.
  destruct (Z.eqb (Product.id q) id) eqn:E.
  - injection H as <-. cbn [List.find]. rewrite Hf, E. reflexivity.
  - cbn [List.find]. rewrite E. exact (IH H).
Qed.

(** C8: recording a sale of [qty] units (the clamped quantity field) of an
    existing product [p] is rejected, leaving the state unchanged, when
    [p]'s stock is below [qty]; otherwise it appends one sale with
    [unitPrice]/[unitCost] the product's price and cost, [total = qty *
    price] and [profit = qty * (price - cost)], decrements that product's
    stock by [qty], and leaves every other part of the state as it was. *)
Theorem saleFormSubmit_spec (s : State) (productId : Z) (qty_in : option Q) (notes : string)
    (newId : Z) (now : string) (p : Product.t) :
  find_product (products s) productId = Some p ->
  let qty := clampInt qty_in 1 1000000 in
  let r := saleFormSubmit s productId qty_in notes newId now in
  (Product.stock p < qty -> r = (Rejected, s)) /\
  (qty <= Product.stock p ->
     exists sale,
       r = (Done, mkState (version s) (business s)
                    (update_first (Product.id p) (decStock qty) (products s))
                    (sales s ++ [sale]) (expenses s) (tables s)) /\
       Sale.id sale = newId /\ Sale.productId sale = Product.id p /\ Sale.qty sale = qty /\
       Sale.unitPrice sale = Product.price p /\ Sale.unitCost sale = Product.cost p /\
       Sale.total sale = (inject_Z qty * Product.price p)%Q /\
       Sale.profit sale = (inject_Z qty * (Product.price p - Product.cost p))%Q /\
       find_product (products (snd r)) productId = Some (decStock qty p)).
Proof.
  intros Hf qty r. unfold r, saleFormSubmit. fold qty. rewrite Hf.
  split.
  - intros Hlt. apply Z.ltb_lt in Hlt. rewrite Hlt. reflexivity.
  - intros Hle. assert (Hb : (Product.stock p <? qty) = false) by (apply Z.ltb_ge; exact Hle).
    rewrite Hb. eexists. split; [reflexivity|].
    do 7 (split; [reflexivity|]).
    cbn [snd products set_products set_sales].
    apply find_update_first; [reflexivity|exact Hf].
Qed.

Lemma saleFormSubmit_spec_witness :
  let soda := Product.mk 1 "Soda" "bebida" 5 8 10 2 in
  let s := mkState 1 ("M&S - Control Finanzas", "GTQ") [soda] [] [] [] in
  exists sale,
    snd (saleFormSubmit s 1 (Some 3%Q) "" 100 "2026-03-10T23:30:00.000Z")
      = mkState 1 ("M&S - Control Finanzas", "GTQ") [Product.mk 1 "Soda" "bebida" 5 8 7 2]
          [sale] [] [] /\
    Sale.total sale = 24%Q /\ Sale.profit sale = 9%Q.
Proof.
  intros soda s.
  destruct (saleFormSubmit_spec s 1 (Some 3%Q) "" 100 "2026-03-10T23:30:00.000Z" soda
              eq_refl) as [_ H].
  destruct (H ltac:(vm_compute; discriminate)) as [sale [Hr [_ [_ [_ [_ [_ [Ht [Hp _]]]]]]]]].
  exists sale. rewrite Hr, Ht, Hp. split; [vm_compute; reflexivity|].
  split; vm_compute; reflexivity.
Defined.

(* ----------------------------------------------------------------- *)
(** ** Deleting a sale *)

(** C10: deleting a sale changes only the sales sequence: products (and
    so their stock), expenses, tables, version and business are the same
    after the call.  When the sale exists and the user confirms, exactly
    the sales with the given id are removed, in order; otherwise nothing
    changes. *)
Theorem saleDelete_frame (s : State) (id : Z) (ok : bool) :
  let r := saleDelete s id ok in
  products (snd r) = products s /\ expenses (snd r) = expenses s /\
  tables (snd r) = tables s /\ version (snd r) = version s /\ business (snd r) = business s /\
  (fst r = Done <-> ok = true /\ exists x, In x (sales s) /\ Sale.id x = id) /\
  (fst r = Done ->
     sales (snd r) = List.filter (fun x => negb (Z.eqb (Sale.id x) id)) (sales s) /\
     forall x, In x (sales (snd r)) <-> In x (sales s) /\ Sale.id x <> id) /\
  (fst r = Rejected -> snd r = s).
Proof.
  cbv zeta. unfold saleDelete.
  destruct (List.find (fun x => Z.eqb (Sale.id x) id) (sales s)) as [y|] eqn:Hfind.
  - apply List.find_some in Hfind as [Hin Hy]. apply Z.eqb_eq in Hy.
    destruct ok; cbn [negb fst snd products expenses tables version business sales set_sales].
    + do 5 (split; [reflexivity|]). split; [split; [intros _; split; eauto|intros _; reflexivity]|].
      split; [|intros H; discriminate H].
      intros _. split; [reflexivity|]. intros x. rewrite List.filter_In.
      rewrite Bool.negb_true_iff, Z.eqb_neq. reflexivity.
    + do 5 (split; [reflexivity|]). split; [split; [intros H; discriminate H|intros [H _]; discriminate H]|].
      split; [intros H; discriminate H|reflexivity].
  - cbn [fst snd]. do 5 (split; [reflexivity|]).
    split; [split; [intros H; discriminate H|]|split; [intros H; discriminate H|reflexivity]].
    intros [_ [x [Hin Hx]]]. exfalso.
    apply (List.find_none _ _ Hfind) in Hin. rewrite Hx, Z.eqb_refl in Hin. discriminate Hin.
Qed.

(* ----------------------------------------------------------------- *)
(** ** The product invariant *)

Lemma clampInt_bounds (n : option Q) (min max : Z) :
  min <= max -> min <= clampInt n min max <= max.
Proof. intros H. unfold clampInt. destruct n; lia. Qed.

Lemma clampInt_nonneg (n : option Q) (max : Z) : 0 <= max -> (0 <=? clampInt n 0 max) = true.
Proof. intros H. apply Z.leb_le. apply (clampInt_bounds n 0 max H). Qed.

Lemma forallb_update_first (P : Product.t -> bool) (id : Z) (f : Product.t -> Product.t)
    (ps : list Product.t) :
  (forall q, P (f q) = true) -> forallb P ps = true -> forallb P (update_first id f ps) = true.
Proof.
  intros Hf. induction ps as [|q r IH]; cbn [update_first forallb]; [auto|].
  intros H. apply andb_prop in H as [Hq Hr].
  destruct (Z.eqb (Product.id q) id); cbn [forallb]; rewrite ?Hf, ?Hq, ?IH; auto.
Qed.

Lemma forallb_snoc {A} (P : A -> bool) (l : list A) (x : A) :
  forallb P l = true -> P x = true -> forallb P (l ++ [x]) = true.
Proof. intros Hl Hx. rewrite List.forallb_app, Hl. cbn. rewrite Hx. reflexivity. Qed.

Lemma fold_left_preserves {A B} (P : A -> Prop) (f : A -> B -> A) (l : list B) (a : A) :
  (forall a x, P a -> P (f a x)) -> P a -> P (List.fold_left f l a).
Proof.
  intros Hf. revert a. induction l as [|x r IH]; cbn [List.fold_left]; auto.
Qed.

Section LegacyStock.

Variable parseDate : string -> option Z.
Variable uuids : nat -> Z.
Variable now : Z.

Definition accStockOk (a : Acc) : Prop := forallb stockOk (products (acc_state a)) = true.

Lemma importProduct_stockOk (a : Acc) (lp : LegacyProduct) :
  accStockOk a -> accStockOk (importProduct uuids a lp).
Proof.
  unfold accStockOk, importProduct. intros H.
  destruct (String.eqb _ "") ; [exact H|].
  cbn [acc_state products set_products]. apply forallb_snoc; [exact H|].
  unfold stockOk; cbn [Product.stock Product.stockMin].
  rewrite !clampInt_nonneg by lia. reflexivity.
Qed.

Lemma importSale_stockOk (a : Acc) (ls : LegacySale) :
  accStockOk a -> accStockOk (importSale parseDate uuids now a ls).
Proof.
  unfold accStockOk, importSale. intros H.
  destruct (acc_byName a !! _); cbn [acc_state products set_sales set_products];
    [exact H|].
  apply forallb_snoc; [exact H|reflexivity].
Qed.

Lemma importTable_stockOk (a : Acc) (lt : LegacyTable) :
  accStockOk a -> accStockOk (importTable parseDate uuids now a lt).
Proof.
  unfold accStockOk, importTable. intros H.
  destruct (lt_activa lt) as [[|]|]; cbn [acc_state products set_tables]; exact H.
Qed.

End LegacyStock.

(** C7 (as the code has it): a product form submission keeps every product
    satisfying [price >= cost], [stock >= 0] and [stockMin >= 0] (it
    rejects [price < cost] and clamps stock and stockMin into
    [0, 1000000]); the Legacy Importer keeps [stock >= 0] and
    [stockMin >= 0] for every product it creates, placeholders included,
    but does not check [price >= cost]. *)
Theorem product_invariants (s : State) (idField : Z) (name_in category : string)
    (cost_in price_in stock_in stockMin_in : option Q) (newId : Z)
    (parseDate : string -> option Z) (uuids : nat -> Z) (now : Z) (state : State)
    (lP : option (list LegacyProduct)) (lS : option (list LegacySale))
    (lT : option (list LegacyTable)) :
  (forallb productOk (products s) = true ->
   forallb productOk (products (snd (productFormSubmit s idField name_in category cost_in
                                       price_in stock_in stockMin_in newId))) = true) /\
  (forallb stockOk (products state) = true ->
   forallb stockOk (products (fst (migrateLegacy parseDate uuids now state lP lS lT))) = true).
Proof.
  split.
  - intros H. unfold productFormSubmit.
    destruct (String.eqb (trim name_in) "") eqn:E1; [exact H|].
    destruct (negb (Qle_bool 0 (parseMoney cost_in)) || negb (Qle_bool 0 (parseMoney price_in))
              || negb (Qle_bool (parseMoney cost_in) (parseMoney price_in))) eqn:E2; [exact H|].
    apply Bool.orb_false_iff in E2 as [_ E2]. apply Bool.negb_false_iff in E2.
    assert (Hnew : forall i, productOk (Product.mk i (trim name_in) category
                     (parseMoney cost_in) (parseMoney price_in) (clampInt stock_in 0 1000000)
                     (clampInt stockMin_in 0 1000000)) = true).
    { intros i. unfold productOk. cbn [Product.cost Product.price Product.stock Product.stockMin].
      rewrite E2, !clampInt_nonneg by lia. reflexivity. }
    destruct (negb (Z.eqb idField 0)).
    + destruct (find_product (products s) idField); [|exact H].
      cbn [snd products set_products]. apply forallb_update_first; [intros q; apply Hnew|exact H].
    + cbn [snd products set_products]. apply forallb_snoc; [exact H|apply Hnew].
  - intros H. unfold migrateLegacy.
    destruct (negb (isStateEmptyT state)); [exact H|].
    destruct (negb (_ || _ || _)); [exact H|].
    cbn [fst].
    apply (fold_left_preserves accStockOk); [intros a x; apply importTable_stockOk|].
    apply (fold_left_preserves accStockOk); [intros a x; apply importSale_stockOk|].
    apply (fold_left_preserves accStockOk); [intros a x; apply importProduct_stockOk|].
    reflexivity.
Qed.

Lemma product_invariants_witness :
  let s := mkState 1 ("M&S - Control Finanzas", "GTQ") [] [] [] [] in
  forallb productOk (products (snd (productFormSubmit s 0 "Soda" "bebida" (Some 5%Q) (Some 8%Q)
                                     (Some 10%Q) (Some 2%Q) 7))) = true /\
  forallb stockOk (products (fst (migrateLegacy isoParse (fun n => Z.of_nat n + 1) 0 s
     (Some [mkLegacyProduct (Some "Soda") None None (Some (Some 10%Q)) (Some (Some 5%Q))
              (Some (Some (-3)%Q)) None]) None None))) = true.
Proof.
  intros s.
  destruct (product_invariants s 0 "Soda" "bebida" (Some 5%Q) (Some 8%Q) (Some 10%Q) (Some 2%Q) 7
              isoParse (fun n => Z.of_nat n + 1) 0 s
              (Some [mkLegacyProduct (Some "Soda") None None (Some (Some 10%Q)) (Some (Some 5%Q))
                       (Some (Some (-3)%Q)) None]) None None) as [H1 H2].
  split; [apply H1; reflexivity|apply H2; reflexivity].
Defined.

(** C7 fails for the importer: a legacy product with costo 10 and precio 5
    is imported as a product with price 5 < cost 10. *)
Lemma import_price_below_cost :
  let lp := mkLegacyProduct (Some "Soda") None None (Some (Some 10%Q)) (Some (Some 5%Q))
              (Some (Some 3%Q)) None in
  let r := migrateLegacy isoParse (fun n => Z.of_nat n + 1) 0 emptyState (Some [lp]) None None in
  snd r = true /\ forallb productOk (products (fst r)) = false /\
  List.map (fun p => (Product.cost p, Product.price p)) (products (fst r)) = [(10%Q, 5%Q)].
Proof. vm_compute. split; [reflexivity|split; reflexivity]. Qed.

(* ----------------------------------------------------------------- *)
(** ** One active session per table *)

Lemma activeTables_snoc (s : State) (t : TableSession.t) :
  TableSession.active t = true ->
  activeTables (set_tables s (tables s ++ [t])) = activeTables s ++ [TableSession.table t].
Proof.
  intros Ha. unfold activeTables. cbn [tables set_tables].
  rewrite List.filter_app, List.map_app. cbn [List.filter]. rewrite Ha. reflexivity.
Qed.

Lemma activeTables_find_none (ts : list TableSession.t) (table : Z) :
  List.find (fun t => TableSession.active t && Z.eqb (TableSession.table t) table) ts = None ->
  ~ In table (List.map TableSession.table (List.filter TableSession.active ts)).
Proof.
  intros Hn Hin. apply List.in_map_iff in Hin as [t [Ht Hin]].
  apply List.filter_In in Hin as [Hin Ha].
  pose proof (List.find_none _ _ Hn t Hin) as H. cbn beta in H.
  rewrite Ha, Ht, Z.eqb_refl in H. discriminate H.
Qed.

(** C9 (as the code has it): the table form rejects, without changing the
    state, a session for a table number that already has an active
    session, and so keeps the active sessions' table numbers free of
    duplicates. *)
Theorem tableForm_one_active_per_table (s : State) (table_in players_in rate_in : option Q)
    (newId : Z) (now : string) :
  NoDup (activeTables s) ->
  let r := tableFormSubmit s table_in players_in rate_in newId now in
  NoDup (activeTables (snd r)) /\
  (In (clampInt table_in 1 100) (activeTables s) -> r = (Rejected, s)).
Proof.
  intros Hnd. unfold tableFormSubmit.
  destruct (Qle_bool (parseMoney rate_in) 0); [split; [exact Hnd|reflexivity]|].
  destruct (List.find _ (tables s)) as [t|] eqn:E; [split; [exact Hnd|reflexivity]|].
  split.
  - cbn [snd]. rewrite activeTables_snoc by reflexivity. cbn [TableSession.table].
    apply NoDup_app. split; [exact Hnd|]. split; [|apply NoDup_singleton].
    intros x Hx Hx'. apply list_elem_of_singleton in Hx'. subst x.
    apply list_elem_of_In in Hx. exact (activeTables_find_none _ _ E Hx).
  - intros Hin. exfalso. exact (activeTables_find_none _ _ E Hin).
Qed.

Lemma tableForm_one_active_per_table_witness :
  let s := mkState 1 ("M&S - Control Finanzas", "GTQ") [] [] []
             [TableSession.mk 1 3 2 25 "2026-03-10T23:30:00.000Z" None true None] in
  NoDup (activeTables s) /\
  tableFormSubmit s (Some 3%Q) (Some 4%Q) (Some 30%Q) 2 "2026-03-10T23:45:00.000Z"
    = (Rejected, s).
Proof.
  intros s.
  assert (Hnd : NoDup (activeTables s)) by (apply (bool_decide_unpack _); vm_compute; reflexivity).
  split; [exact Hnd|].
  apply (tableForm_one_active_per_table s (Some 3%Q) (Some 4%Q) (Some 30%Q) 2
           "2026-03-10T23:45:00.000Z" Hnd).
  vm_compute. left. reflexivity.
Defined.

(** C9 fails for the importer: two legacy active records for mesa 1 become
    two active sessions of table 1. *)
Lemma import_duplicate_active_table :
  let lt := mkLegacyTable None (Some (Some 1%Q)) (Some (Some 2%Q)) (Some (Some 25%Q)) None in
  let r := migrateLegacy isoParse (fun n => Z.of_nat n + 1) 0 emptyState None None
             (Some [lt; lt]) in
  snd r = true /\ activeTables (fst r) = [1; 1] /\ ~ NoDup (activeTables (fst r)).
Proof.
  intros lt r. split; [vm_compute; reflexivity|].
  assert (H : activeTables (fst r) = [1; 1])
    by (vm_compute; reflexivity).
  split; [exact H|]. rewrite H. intros Hnd. apply NoDup_cons in Hnd as [Hn _].
  apply Hn. left.
Qed.

(* ================================================================= *)
(** * Further properties of the code *)

(* ----------------------------------------------------------------- *)
(** ** escapeHtml and toCSV *)

Lemma flat_map_flat_map {A B C} (f : A -> list B) (g : B -> list C) (l : list A) :
  List.flat_map g (List.flat_map f l) = List.flat_map (fun x => List.flat_map g (f x)) l.
Proof.
  induction l as [|x r IH]; [reflexivity|].
  cbn [List.flat_map]. rewrite List.flat_map_app, IH. reflexivity.
Qed.

Lemma flat_map_ext_l {A B} (f g : A -> list B) (l : list A) :
  (forall x, f x = g x) -> List.flat_map f l = List.flat_map g l.
Proof. intros H. induction l as [|x r IH]; cbn; [reflexivity|]. rewrite H, IH. reflexivity. Qed.

(** A prefix-free, never empty encoding of the letters is injective on words. *)
Lemma flat_map_prefix_free_inj {A B} (f : A -> list B) :
  (forall a, f a <> []) ->
  (forall a b l1 l2, f a ++ l1 = f b ++ l2 -> a = b /\ l1 = l2) ->
  forall x y, List.flat_map f x = List.flat_map f y -> x = y.
Proof.
  intros Hne Hpf x. induction x as [|a x IH]; intros [|b y]; cbn [List.flat_map]; intros H.
  - reflexivity.
  - destruct (f b) eqn:E; [exfalso; exact (Hne b E)|discriminate H].
  - destruct (f a) eqn:E; [exfalso; exact (Hne a E)|discriminate H].
  - apply Hpf in H as [-> H]. f_equal. exact (IH y H).
Qed.

Lemma escapeHtml_chars (s : string) :
  list_ascii_of_string (escapeHtml s) = List.flat_map escChar (list_ascii_of_string s).
Proof.
  unfold escapeHtml, replaceAllChar. rewrite !list_ascii_of_string_of_list_ascii.
  rewrite !flat_map_flat_map. apply flat_map_ext_l. intros x. unfold escChar.
  destruct (Ascii.eqb x "&") eqn:E1;
    [apply Ascii.eqb_eq in E1; subst x; reflexivity|].
  cbn [List.flat_map app].
  destruct (Ascii.eqb x "<") eqn:E2; [apply Ascii.eqb_eq in E2; subst x; reflexivity|].
  cbn [List.flat_map app].
  destruct (Ascii.eqb x ">") eqn:E3; [apply Ascii.eqb_eq in E3; subst x; reflexivity|].
  cbn [List.flat_map app].
  destruct (Ascii.eqb x DQ) eqn:E4; [apply Ascii.eqb_eq in E4; subst x; reflexivity|].
  cbn [List.flat_map app].
  destruct (Ascii.eqb x "'") eqn:E5; [apply Ascii.eqb_eq in E5; subst x; reflexivity|].
  reflexivity.
Qed.

(** X1: [escapeHtml] leaves no [<], [>], double or single quote in its
    output, and returns its argument unchanged when it has none of
    [&], [<], [>], double or single quote. *)
Theorem escapeHtml_spec (s : string) :
  (forall c, In c (list_ascii_of_string (escapeHtml s)) ->
     c <> "<"%char /\ c <> ">"%char /\ c <> DQ /\ c <> "'"%char) /\
  ((forall c, In c (list_ascii_of_string s) -> ~ In c ["&"; "<"; ">"; DQ; "'"]%char) ->
   escapeHtml s = s).
Proof.
  split.
  - intros c. rewrite escapeHtml_chars. intros Hin.
    apply List.in_flat_map in Hin as [x [_ Hx]]. unfold escChar in Hx.
    destruct (Ascii.eqb x "&") eqn:E1; [cbn in Hx; intuition subst; discriminate|].
    destruct (Ascii.eqb x "<") eqn:E2; [cbn in Hx; intuition subst; discriminate|].
    destruct (Ascii.eqb x ">") eqn:E3; [cbn in Hx; intuition subst; discriminate|].
    destruct (Ascii.eqb x DQ) eqn:E4; [cbn in Hx; intuition subst; discriminate|].
    destruct (Ascii.eqb x "'") eqn:E5; [cbn in Hx; intuition subst; discriminate|].
    destruct Hx as [<-|[]].
    repeat split; intros ->; [discriminate E2|discriminate E3|discriminate E4|discriminate E5].
  - intros H. rewrite <- (string_of_list_ascii_of_string (escapeHtml s)), escapeHtml_chars.
    rewrite <- (string_of_list_ascii_of_string s) at 2. f_equal.
    induction (list_ascii_of_string s) as [|x r IH]; [reflexivity|].
    cbn [List.flat_map]. rewrite IH by (intros c Hc; apply H; right; exact Hc).
    assert (Hx : ~ In x ["&"; "<"; ">"; DQ; "'"]%char) by (apply H; left; reflexivity).
    unfold escChar.
    destruct (Ascii.eqb x "&") eqn:E1;
      [apply Ascii.eqb_eq in E1; subst; exfalso; apply Hx; cbn; tauto|].
    destruct (Ascii.eqb x "<") eqn:E2;
      [apply Ascii.eqb_eq in E2; subst; exfalso; apply Hx; cbn; tauto|].
    destruct (Ascii.eqb x ">") eqn:E3;
      [apply Ascii.eqb_eq in E3; subst; exfalso; apply Hx; cbn; tauto|].
    destruct (Ascii.eqb x DQ) eqn:E4;
      [apply Ascii.eqb_eq in E4; subst; exfalso; apply Hx; cbn; tauto|].
    destruct (Ascii.eqb x "'") eqn:E5;
      [apply Ascii.eqb_eq in E5; subst; exfalso; apply Hx; cbn; tauto|].
    reflexivity.
Qed.

Lemma escChar_cases (a : ascii) :
  (escChar a = [a] /\ a <> "&"%char) \/
  (a = "&"%char \/ a = "<"%char \/ a = ">"%char \/ a = DQ \/ a = "'"%char).
Proof.
  unfold escChar.
  destruct (Ascii.eqb a "&") eqn:E1; [right; left; apply Ascii.eqb_eq; exact E1|].
  destruct (Ascii.eqb a "<") eqn:E2; [right; right; left; apply Ascii.eqb_eq; exact E2|].
  destruct (Ascii.eqb a ">") eqn:E3; [right; right; right; left; apply Ascii.eqb_eq; exact E3|].
  destruct (Ascii.eqb a DQ) eqn:E4;
    [right; right; right; right; left; apply Ascii.eqb_eq; exact E4|].
  destruct (Ascii.eqb a "'") eqn:E5;
    [right; right; right; right; right; apply Ascii.eqb_eq; exact E5|].
  left. split; [reflexivity|]. intros ->. discriminate E1.
Qed.

Lemma escChar_prefix_free (a b : ascii) (l1 l2 : list ascii) :
  escChar a ++ l1 = escChar b ++ l2 -> a = b /\ l1 = l2.
Proof.
  destruct (escChar_cases a) as [[Ha Hna]|Ha]; destruct (escChar_cases b) as [[Hb Hnb]|Hb].
  - rewrite Ha, Hb. intros H. injection H as -> ->. split; reflexivity.
  - rewrite Ha. destruct Hb as [->|[->|[->|[->| ->]]]]; cbn; intros H;
      injection H as Hab _; exfalso; exact (Hna Hab).
  - rewrite Hb. destruct Ha as [->|[->|[->|[->| ->]]]]; cbn; intros H;
      injection H as Hab _; exfalso; exact (Hnb (eq_sym Hab)).
  - destruct Ha as [->|[->|[->|[->| ->]]]]; destruct Hb as [->|[->|[->|[->| ->]]]]; intros H;
      first [split; [reflexivity|exact (List.app_inv_head _ _ _ H)] | (cbn in H; discriminate H)].
Qed.

Lemma escChar_nonempty (a : ascii) : escChar a <> [].
Proof.
  destruct (escChar_cases a) as [[Ha _]|Ha]; [rewrite Ha; discriminate|].
  destruct Ha as [->|[->|[->|[->| ->]]]]; discriminate.
Qed.

(** X2: [escapeHtml] is injective: two different strings never render as
    the same escaped text. *)
Theorem escapeHtml_injective (s1 s2 : string) :
  escapeHtml s1 = escapeHtml s2 -> s1 = s2.
Proof.
  intros H. apply (f_equal list_ascii_of_string) in H. rewrite !escapeHtml_chars in H.
  apply (flat_map_prefix_free_inj escChar escChar_nonempty escChar_prefix_free) in H.
  rewrite <- (string_of_list_ascii_of_string s1), <- (string_of_list_ascii_of_string s2), H.
  reflexivity.
Qed.

Lemma escapeHtml_injective_witness :
  escapeHtml "a<b" = escapeHtml "a<b" /\ "a<b"%string = "a<b"%string.
Proof. split; [reflexivity|apply escapeHtml_injective; reflexivity]. Defined.

Lemma list_ascii_of_string_append (a b : string) :
  list_ascii_of_string (a ++ b) = list_ascii_of_string a ++ list_ascii_of_string b.
Proof. induction a as [|c a IH]; simpl; [reflexivity|]. rewrite IH. reflexivity. Qed.

Lemma dqChar_prefix_free (a b : ascii) (l1 l2 : list ascii) :
  dqChar a ++ l1 = dqChar b ++ l2 -> a = b /\ l1 = l2.
Proof.
  unfold dqChar.
  destruct (Ascii.eqb a DQ) eqn:Ea; destruct (Ascii.eqb b DQ) eqn:Eb;
    apply Ascii.eqb_eq in Ea || apply Ascii.eqb_neq in Ea;
    apply Ascii.eqb_eq in Eb || apply Ascii.eqb_neq in Eb; cbn; intros H.
  - subst. injection H as H. split; [reflexivity|exact H].
  - injection H as Hb _. subst. exfalso. exact (Eb eq_refl).
  - injection H as Ha _. subst. exfalso. exact (Ea eq_refl).
  - injection H as -> ->. split; reflexivity.
Qed.

Lemma dqChar_nonempty (a : ascii) : dqChar a <> [].
Proof. unfold dqChar. destruct (Ascii.eqb a DQ); discriminate. Qed.

Lemma replace_dq_chars (s : string) :
  list_ascii_of_string (replaceAllChar DQ (String DQ (String DQ EmptyString)) s)
  = List.flat_map dqChar (list_ascii_of_string s).
Proof. unfold replaceAllChar. rewrite list_ascii_of_string_of_list_ascii. reflexivity. Qed.

Lemma flat_map_dqChar_length (l : list ascii) :
  (List.length l <= List.length (List.flat_map dqChar l))%nat.
Proof.
  induction l as [|c r IH]; cbn [List.flat_map List.length]; [lia|].
  rewrite List.length_app.
  assert (Hc : (1 <= List.length (dqChar c))%nat)
    by (unfold dqChar; destruct (Ascii.eqb c DQ); cbn [List.length]; lia).
  lia.
Qed.

(** X3: the CSV field encoding [esc] of [toCSV] is injective, and it
    leaves a field unchanged exactly when the field has no line feed,
    carriage return, comma or double quote; otherwise the field is
    wrapped in double quotes. *)
Theorem csvEsc_injective (s1 s2 : string) :
  (csvEsc s1 = csvEsc s2 -> s1 = s2) /\
  (csvEsc s1 = s1 <-> List.existsb csvSpecial (list_ascii_of_string s1) = false).
Proof.
  assert (Hplain : forall s r, List.existsb csvSpecial (list_ascii_of_string s) = false ->
                     s <> String DQ r).
  { intros s r E ->. discriminate E. }
  split.
  - unfold csvEsc.
    destruct (List.existsb csvSpecial (list_ascii_of_string s1)) eqn:E1;
      destruct (List.existsb csvSpecial (list_ascii_of_string s2)) eqn:E2; intros H.
    + injection H as H. apply (f_equal list_ascii_of_string) in H.
      rewrite !list_ascii_of_string_append in H. apply List.app_inv_tail in H.
      unfold replaceAllChar in H. rewrite !list_ascii_of_string_of_list_ascii in H.
      apply (flat_map_prefix_free_inj dqChar dqChar_nonempty dqChar_prefix_free) in H.
      rewrite <- (string_of_list_ascii_of_string s1), <- (string_of_list_ascii_of_string s2), H.
      reflexivity.
    + exfalso. exact (Hplain s2 _ E2 (eq_sym H)).
    + exfalso. exact (Hplain s1 _ E1 H).
    + exact H.
  - split.
    + intros H. destruct (List.existsb csvSpecial (list_ascii_of_string s1)) eqn:E; [|reflexivity].
      exfalso. unfold csvEsc in H. rewrite E in H.
      apply (f_equal (fun x => List.length (list_ascii_of_string x))) in H. cbv beta in H.
      cbn [list_ascii_of_string] in H. rewrite list_ascii_of_string_append in H.
      rewrite replace_dq_chars in H.
      cbn [List.length] in H. rewrite List.length_app in H.
      cbn [List.length list_ascii_of_string] in H.
      pose proof (flat_map_dqChar_length (list_ascii_of_string s1)). lia.
    + intros E. unfold csvEsc. rewrite E. reflexivity.
Qed.

Lemma csvEsc_injective_witness :
  csvEsc "a,b" = csvEsc "a,b" /\ "a,b"%string = "a,b"%string.
Proof. split; [reflexivity|apply (proj1 (csvEsc_injective "a,b" "a,b")); reflexivity]. Defined.

(* ----------------------------------------------------------------- *)
(** ** clampInt and toFixed(2) *)

(** X4: with [min <= max], [clampInt(n, min, max)] lies in [min, max],
    and an integer already in range comes back unchanged. *)
Theorem clampInt_range (n : option Q) (min max : Z) :
  min <= max ->
  (min <= clampInt n min max <= max) /\
  (forall z, n = Some (inject_Z z) -> min <= z <= max -> clampInt n min max = z).
Proof.
  intros H. split; [apply clampInt_bounds; exact H|].
  intros z -> Hz. unfold clampInt. rewrite Qfloor_Z. lia.
Qed.

Lemma clampInt_range_witness :
  1 <= 100 /\ clampInt (Some (inject_Z 7)) 1 100 = 7.
Proof.
  split; [lia|]. apply (proj2 (clampInt_range (Some (inject_Z 7)) 1 100 ltac:(lia)) 7);
    [reflexivity|lia].
Defined.

Lemma round2_cents (z : Z) : round2 (z # 100) = (z # 100)%Q.
Proof.
  unfold round2, Qle_bool, Qabs, Qfloor, Qmult, Qplus. cbn [Qnum Qden].
  change (Z.pos (100 * 1)) with 100. change (Z.pos (100 * 1 * 2)) with 200.
  replace ((Z.abs z * 100 * 2 + 1 * 100) / 200) with (Z.abs z)
    by (apply Z.div_unique with (r := 100); lia).
  destruct (Z.leb_spec (0 * 100) (z * 1)) as [Hz|Hz].
  - f_equal. lia.
  - f_equal. lia.
Qed.

(** X5: [Number(x.toFixed(2))] is the identity on amounts with at most
    two decimals, so rounding twice is rounding once; it keeps the sign
    of non-negative amounts. *)
Theorem round2_idempotent (q : Q) :
  round2 (round2 q) = round2 q /\ (forall z, round2 (z # 100) = (z # 100)%Q) /\
  (0 <= q -> 0 <= round2 q)%Q.
Proof.
  split; [|split; [exact round2_cents|]].
  - unfold round2 at 2 3. destruct (Qle_bool 0 q); apply round2_cents.
  - intros Hq. unfold round2. rewrite (proj2 (Qle_bool_iff 0 q) Hq).
    assert (H0 : 0 <= Qfloor (Qabs q * 100 + (1 # 2))).
    { rewrite <- (Qfloor_Z 0). apply Qfloor_resp_le.
      rewrite Qabs_pos by exact Hq. unfold inject_Z.
      apply (Qle_trans _ (q * 100)); [|rewrite <- (Qplus_0_r (q * 100)) at 1;
        apply Qplus_le_r; discriminate].
      rewrite <- (Qmult_0_l 100). apply Qmult_le_compat_r; [exact Hq|discriminate]. }
    unfold Qle. cbn [Qnum Qden]. lia.
Qed.

Lemma round2_idempotent_witness :
  (0 <= 3 # 2)%Q /\ (0 <= round2 (3 # 2))%Q.
Proof.
  split; [discriminate|apply (proj2 (proj2 (round2_idempotent (3 # 2)))); discriminate].
Defined.

(* ----------------------------------------------------------------- *)
(** ** normalizeName *)













(* ----------------------------------------------------------------- *)
(** ** Device id *)

(** X7: [ensureDeviceId] returns the stored device id when there is one
    and otherwise stores and returns the fresh [randomId()]; once it has
    run, a later call returns the same id and writes nothing. *)
Theorem ensureDeviceId_stable (rnd1 rnd2 : string) (w : world) :
  rfail w IDB_META_KEY = false -> wfail w IDB_META_KEY = false -> rnd1 <> ""%string ->
  fst (ensureDeviceId rnd1 w) = Some (str_or (deviceId (metaOf (store w))) rnd1) /\
  ensureDeviceId rnd2 (snd (ensureDeviceId rnd1 w)) = ensureDeviceId rnd1 w.
Proof.
  intros Hr Hw Hn.
  unfold ensureDeviceId, getMeta, setMeta, idbGet, idbSet, mbind, IDB_bind, mret, IDB_ret.
  rewrite Hr. cbn beta iota. fold (metaOf (store w)).
  destruct (str_truthy (deviceId (metaOf (store w)))) eqn:Ht.
  - cbn [fst snd]. rewrite Hr. fold (metaOf (store w)). rewrite Ht. split; [reflexivity|].
    destruct (deviceId (metaOf (store w))) as [d|]; [|discriminate Ht].
    cbn in Ht |- *. destruct (String.eqb d ""); [discriminate Ht|reflexivity].
  - rewrite Hw. cbn [fst snd rfail wfail store with_store]. rewrite Hr.
    rewrite lookup_insert_eq. cbn [deviceId set_deviceId str_truthy].
    assert (E : String.eqb rnd1 "" = false) by (apply String.eqb_neq; exact Hn).
    rewrite E. cbn [negb str_or]. rewrite E. split; [|reflexivity].
    destruct (deviceId (metaOf (store w))) as [d|]; [|reflexivity].
    cbn in Ht |- *. destruct (String.eqb d ""); [reflexivity|discriminate Ht].
Qed.

Lemma ensureDeviceId_stable_witness :
  let w := mkWorld ∅ (fun _ => false) (fun _ => false) in
  fst (ensureDeviceId "dev-1" w) = Some "dev-1"%string /\
  ensureDeviceId "dev-2" (snd (ensureDeviceId "dev-1" w)) = ensureDeviceId "dev-1" w.
Proof.
  intros w. destruct (ensureDeviceId_stable "dev-1" "dev-2" w eq_refl eq_refl ltac:(discriminate))
    as [H1 H2].
  split; [exact H1|exact H2].
Defined.

(* ----------------------------------------------------------------- *)
(** ** loadState *)



(* ----------------------------------------------------------------- *)
(** ** Restoring a snapshot just taken *)

Lemma trimIndex_frame (fuel : nat) : forall (l : list IndexEntry) (w : world),
  nofault w ->
  exists l' w', trimIndex fuel l w = (Some l', w') /\ nofault w' /\
    forall k, (forall e, In e (List.tl l) -> k <> snapKey (ie_id e)) -> store w' !! k = store w !! k.
Proof.
  induction fuel as [|f IH]; intros l w Hw.
  - exists l, w. split; [reflexivity|]. split; [exact Hw|]. intros; reflexivity.
  - cbn [trimIndex]. destruct (Nat.ltb MAX_SNAPSHOTS (List.length l)) eqn:Hlt;
      [|exists l, w; split; [reflexivity|split; [exact Hw|intros; reflexivity]]].
    apply Nat.ltb_lt in Hlt. unfold MAX_SNAPSHOTS in Hlt.
    destruct (List.rev l) as [|removed rest] eqn:Hr;
      [exists l, w; split; [reflexivity|split; [exact Hw|intros; reflexivity]]|].
    assert (Hl : l = List.rev rest ++ [removed])
      by (rewrite <- (List.rev_involutive l), Hr; reflexivity).
    destruct (List.rev rest) as [|a t] eqn:Hrest; [subst l; cbn in Hlt; lia|].
    assert (Htl : List.tl l = t ++ [removed]) by (rewrite Hl; reflexivity).
    set (w1 := if negb (String.eqb (ie_id removed) "")
               then with_store w (delete (snapKey (ie_id removed)) (store w)) else w).
    assert (Hstep : ((if negb (String.eqb (ie_id removed) "")
                      then try_ignore (idbDelete (IDB_SNAPSHOT_PREFIX ++ ie_id removed))
                      else mret tt) ≫= (fun _ => trimIndex f (a :: t))) w
                    = trimIndex f (a :: t) w1).
    { unfold w1. destruct (negb (String.eqb (ie_id removed) "")).
      - rewrite bind_try_delete by exact Hw. reflexivity.
      - reflexivity. }
    rewrite Hstep.
    assert (Hw1 : nofault w1)
      by (unfold w1; destruct (negb _); [apply nofault_with_store|]; exact Hw).
    destruct (IH (a :: t) w1 Hw1) as [l' [w' [Ht [Hw' Hk]]]].
    exists l', w'. split; [exact Ht|]. split; [exact Hw'|].
    intros k Hnot. rewrite Hk.
    + unfold w1. destruct (negb _); [|reflexivity]. cbn [store with_store].
      apply lookup_delete_ne. intros Heq. apply (Hnot removed); [|symmetry; exact Heq].
      rewrite Htl. apply List.in_or_app. right. left. reflexivity.
    + intros e He. apply Hnot. rewrite Htl. apply List.in_or_app. left. exact He.
Qed.

Lemma createSnapshot_body (st : jval) (reason : option string) (now : Z) (w : world) :
  nofault w -> ~ In (toISOString now) (List.map ie_id (indexOf (store w))) ->
  exists w', createSnapshot st reason now w
               = (Some (mkSnapshot (toISOString now) (toISOString now)
                          (str_or reason "manual") st), w') /\
    nofault w' /\
    store w' !! snapKey (toISOString now)
      = Some (VSnap (mkSnapshot (toISOString now) (toISOString now) (str_or reason "manual") st)).
Proof.
  intros Hw Hfresh. unfold createSnapshot.
  rewrite bind_idbSet by exact Hw.
  rewrite bind_listSnapshots by (apply nofault_with_store; exact Hw).
  cbn [store with_store].
  set (body := mkSnapshot (toISOString now) (toISOString now) (str_or reason "manual") st).
  set (w1 := with_store w (<[(IDB_SNAPSHOT_PREFIX ++ toISOString now)%string := VSnap body]>
                             (store w))).
  assert (Hidx : indexOf (<[(IDB_SNAPSHOT_PREFIX ++ toISOString now)%string := VSnap body]>
                            (store w)) = indexOf (store w)).
  { unfold indexOf. rewrite lookup_insert_ne; [reflexivity|]. apply snapKey_not_index. }
  rewrite Hidx.
  assert (Hw1 : nofault w1) by (apply nofault_with_store; exact Hw).
  destruct (trimIndex_frame (List.length (mkEntry (toISOString now) (toISOString now)
                               (snap_reason body) :: indexOf (store w)))
              (mkEntry (toISOString now) (toISOString now) (snap_reason body)
                 :: indexOf (store w)) w1 Hw1) as [l' [w2 [Ht [Hw2 Hk]]]].
  rewrite (bind_ok _ _ _ _ _ Ht).
  rewrite bind_idbSet by exact Hw2.
  eexists. split; [reflexivity|]. split; [apply nofault_with_store; exact Hw2|].
  cbn [store with_store].
  rewrite lookup_insert_ne by (apply not_eq_sym, snapKey_not_index).
  rewrite Hk.
  - unfold w1. cbn [store with_store]. apply lookup_insert_eq.
  - intros e He Heq. apply snapKey_inj in Heq. apply Hfresh. rewrite Heq.
    apply List.in_map. exact He.
Qed.

Lemma saveState_nofault (st : jval) (o : SaveOptions) (now : Z) (rnd : string) (w : world) :
  nofault w ->
  exists w', saveState st o now rnd w = (Some tt, w') /\
             store w' !! IDB_STATE_KEY = Some (VState st).
Proof.
  intros Hw. unfold saveState, try_ignore, catch_with, getMeta, setMeta.
  rewrite bind_idbSet by exact Hw. unfold mbind at 1, IDB_bind at 1.
  rewrite bind_idbGet by (apply nofault_with_store; exact Hw).
  unfold mret, IDB_ret, idbSet. cbn [wfail with_store]. rewrite (proj2 (Hw IDB_META_KEY)).
  eexists. split; [reflexivity|]. cbn [store with_store].
  rewrite lookup_insert_ne by (apply not_eq_sym, state_key_ne_meta). apply lookup_insert_eq.
Qed.

(** X9: a snapshot just taken can be restored: with no failing request
    and a timestamp id not yet in the index, restoring the snapshot that
    [createSnapshot(state)] returned (a truthy state) makes [state] the
    live state again and writes it as the state document. *)
Theorem snapshot_restore_roundtrip (st state : jval) (reason : option string)
    (now now' : Z) (rnd : string) (w : world) :
  nofault w -> ~ In (toISOString now) (List.map ie_id (indexOf (store w))) ->
  truthy (Some st) = true ->
  exists snap w1 w2,
    createSnapshot st reason now w = (Some snap, w1) /\
    snapshotRestore (snap_id snap) true state now' rnd w1 = (Some (Restored, st), w2) /\
    store w2 !! IDB_STATE_KEY = Some (VState st).
Proof.
  intros Hw Hfresh Ht.
  destruct (createSnapshot_body st reason now w Hw Hfresh) as [w1 [Hc [Hw1 Hb]]].
  destruct (saveState_nofault st (mkSaveOptions None None (Some "snapshot-restore")) now' rnd w1
              Hw1) as [w2 [Hs Hst]].
  do 3 eexists. split; [exact Hc|]. split; [|exact Hst].
  unfold snapshotRestore. cbn [snap_id].
  rewrite toISOString_nonempty. cbn [negb].
  unfold catch_with at 1. rewrite bind_idbGet by exact Hw1.
  unfold snapKey in Hb. rewrite Hb. cbn [snap_state]. rewrite Ht.
  unfold catch_with. rewrite (bind_ok _ _ _ _ _ Hs). reflexivity.
Qed.

Lemma snapshot_restore_roundtrip_witness :
  let w := mkWorld ∅ (fun _ => false) (fun _ => false) in
  exists snap w1 w2,
    createSnapshot (JObj [("products", JArr [])]) None 1773185400000 w = (Some snap, w1) /\
    snapshotRestore (snap_id snap) true (JObj []) 1773189000000 "dev-1" w1
      = (Some (Restored, JObj [("products", JArr [])]), w2) /\
    store w2 !! IDB_STATE_KEY = Some (VState (JObj [("products", JArr [])])).
Proof.
  intros w. apply (snapshot_restore_roundtrip (JObj [("products", JArr [])]) (JObj []) None
                     1773185400000 1773189000000 "dev-1" w).
  - intros k. split; reflexivity.
  - vm_compute. intros [].
  - reflexivity.
Defined.

(* ----------------------------------------------------------------- *)
(** ** Expenses *)

(** X10: the expense form only records an expense of a chosen type with
    an amount above zero, so it keeps every recorded amount positive. *)
Theorem expenseForm_positive (s : State) (type_ : string) (amount_in : option Q)
    (desc_in : string) (newId : Z) (now : string) :
  forallb expenseOk (expenses s) = true ->
  forallb expenseOk (expenses (snd (expenseFormSubmit s type_ amount_in desc_in newId now))) = true /\
  (fst (expenseFormSubmit s type_ amount_in desc_in newId now) = Done <->
   type_ <> ""%string /\ (0 < parseMoney amount_in)%Q).
Proof.
  intros H. unfold expenseFormSubmit.
  destruct (String.eqb type_ "") eqn:Et.
  - apply String.eqb_eq in Et. cbn. split; [exact H|]. split; [discriminate|]. tauto.
  - apply String.eqb_neq in Et.
    destruct (Qle_bool (parseMoney amount_in) 0) eqn:Ea.
    + apply Qle_bool_iff in Ea. cbn. split; [exact H|]. split; [discriminate|].
      intros [_ Hlt]. exfalso. apply (Qlt_not_le _ _ Hlt Ea).
    + cbn [fst snd expenses set_expenses]. split.
      * rewrite forallb_app, H. cbn. unfold expenseOk. cbn. rewrite Ea. reflexivity.
      * split; [intros _; split; [exact Et|]|reflexivity].
        apply Qnot_le_lt. intros Hle. apply Qle_bool_iff in Hle. congruence.
Qed.

Lemma expenseForm_positive_witness :
  forallb expenseOk [] = true /\
  forallb expenseOk (expenses (snd (expenseFormSubmit emptyState "luz" (Some 50%Q) "" 7 "t"))) = true.
Proof.
  split; [reflexivity|].
  exact (proj1 (expenseForm_positive emptyState "luz" (Some 50%Q) "" 7 "t" eq_refl)).
Defined.

(* ----------------------------------------------------------------- *)
(** ** The dashboard figures *)










(* ----------------------------------------------------------------- *)
(** ** Tables *)

Lemma update_first_table_split (id : Z) (f : TableSession.t -> TableSession.t)
    (ts : list TableSession.t) (t : TableSession.t) :
  List.find (fun x => Z.eqb (TableSession.id x) id) ts = Some t ->
  exists pre post, ts = pre ++ t :: post /\
    update_first_table id f ts = pre ++ f t :: post.
Proof.
  induction ts as [|x r IH]; cbn; [discriminate|].
  destruct (Z.eqb (TableSession.id x) id).
  - intros H. injection H as <-. exists [], r. split; reflexivity.
  - intros H. destruct (IH H) as [pre [post [E1 E2]]].
    exists (x :: pre), post. rewrite E2, E1. split; reflexivity.
Qed.

Lemma update_first_table_active_same (id : Z) (f : TableSession.t -> TableSession.t)
    (ts : list TableSession.t) :
  (forall t, TableSession.active (f t) = TableSession.active t /\
             TableSession.table (f t) = TableSession.table t) ->
  List.map TableSession.table (List.filter TableSession.active (update_first_table id f ts)) =
  List.map TableSession.table (List.filter TableSession.active ts).
Proof.
  intros Hf. induction ts as [|x r IH]; cbn; [reflexivity|].
  destruct (Z.eqb (TableSession.id x) id); cbn.
  - destruct (Hf x) as [Ha Ht]. rewrite Ha. destruct (TableSession.active x); cbn;
      [rewrite Ht|]; reflexivity.
  - destruct (TableSession.active x); cbn; rewrite IH; reflexivity.
Qed.

Lemma activeTables_app (pre post : list TableSession.t) (t : TableSession.t) :
  List.map TableSession.table (List.filter TableSession.active (pre ++ t :: post)) =
  List.map TableSession.table (List.filter TableSession.active pre) ++
  (if TableSession.active t then [TableSession.table t] else []) ++
  List.map TableSession.table (List.filter TableSession.active post).
Proof.
  rewrite List.filter_app, List.map_app. cbn. destruct (TableSession.active t); reflexivity.
Qed.

Lemma find_none_intro {A} (f : A -> bool) (l : list A) :
  (forall x, In x l -> f x = false) -> List.find f l = None.
Proof.
  induction l as [|x r IH]; intros H; cbn; [reflexivity|].
  rewrite (H x (or_introl eq_refl)). apply IH. intros y Hy. exact (H y (or_intror Hy)).
Qed.

(** X13: no click on a session's button ([table-plus], [table-stop] or
    any other) ever gives two active sessions the same table number:
    the one-active-session-per-table invariant of the table form is kept. *)
Theorem tableClick_keeps_unique (parseDate : string -> option Z) (s : State) (act : string)
    (id nowMs : Z) (nowIso : string) :
  NoDup (activeTables s) ->
  NoDup (activeTables (snd (tableClick parseDate s act id nowMs nowIso))).
Proof.
  intros Hnd. unfold tableClick.
  destruct (List.find (fun x => Z.eqb (TableSession.id x) id) (tables s)) as [t|] eqn:Ef;
    [|exact Hnd].
  destruct (String.eqb act "table-plus").
  - unfold activeTables in *. cbn [snd tables set_tables].
    rewrite update_first_table_active_same; [exact Hnd|]. intros x. split; reflexivity.
  - destruct (String.eqb act "table-stop"); [|exact Hnd].
    unfold activeTables in *. cbn [snd tables set_tables].
    destruct (update_first_table_split id (stopTable parseDate nowMs nowIso) _ t Ef)
      as [pre [post [E1 E2]]].
    rewrite E2, activeTables_app. rewrite E1, activeTables_app in Hnd. cbn [stopTable TableSession.active].
    cbn [app]. destruct (TableSession.active t); [|exact Hnd].
    cbn [app] in Hnd. apply NoDup_ListNoDup in Hnd. apply NoDup_ListNoDup.
    exact (List.NoDup_remove_1 _ _ _ Hnd).
Qed.

Lemma tableClick_keeps_unique_witness :
  let s := set_tables emptyState
             [TableSession.mk 1 3 2 25%Q "2026-03-10T23:30:00.000Z" None true None;
              TableSession.mk 2 4 2 25%Q "2026-03-10T23:40:00.000Z" None true None] in
  NoDup (activeTables s) /\
  NoDup (activeTables (snd (tableClick (fun _ => None) s "table-stop" 1 1773186000000
                              "2026-03-11T00:00:00.000Z"))).
Proof.
  intros s.
  assert (Hnd : NoDup (activeTables s)) by (apply (bool_decide_unpack _); vm_compute; reflexivity).
  split; [exact Hnd|]. exact (tableClick_keeps_unique _ s _ 1 _ _ Hnd).
Defined.

(** X14: stopping an active session frees its table number: afterwards no
    active session has that number, and the table form accepts a new
    session for it (number in 1..100, rate above zero). *)
Theorem tableStop_frees_table (parseDate : string -> option Z) (s s' : State) (id nowMs : Z)
    (nowIso : string) (t : TableSession.t) (players_in rate_in : option Q) (newId : Z)
    (now : string) :
  NoDup (activeTables s) ->
  List.find (fun x => Z.eqb (TableSession.id x) id) (tables s) = Some t ->
  TableSession.active t = true ->
  tableClick parseDate s "table-stop" id nowMs nowIso = (Done, s') ->
  1 <= TableSession.table t <= 100 -> (0 < parseMoney rate_in)%Q ->
  ~ In (TableSession.table t) (activeTables s') /\
  fst (tableFormSubmit s' (Some (inject_Z (TableSession.table t))) players_in rate_in newId now)
    = Done.
Proof.
  intros Hnd Ef Ha Hc Hr Hrate. unfold tableClick in Hc. rewrite Ef in Hc. cbn in Hc.
  injection Hc as <-.
  destruct (update_first_table_split id (stopTable parseDate nowMs nowIso) _ t Ef)
    as [pre [post [E1 E2]]].
  assert (Hnin : ~ In (TableSession.table t)
                   (activeTables (set_tables s (update_first_table id
                                   (stopTable parseDate nowMs nowIso) (tables s))))).
  { unfold activeTables in *. cbn [tables set_tables]. rewrite E2, activeTables_app.
    rewrite E1, activeTables_app, Ha in Hnd. cbn [app] in Hnd.
    cbn [stopTable TableSession.active app].
    apply NoDup_ListNoDup in Hnd. exact (List.NoDup_remove_2 _ _ _ Hnd). }
  split; [exact Hnin|].
  set (s' := set_tables s _) in *.
  unfold tableFormSubmit.
  replace (clampInt (Some (inject_Z (TableSession.table t))) 1 100) with (TableSession.table t)
    by (unfold clampInt; rewrite Qfloor_Z; lia).
  destruct (Qle_bool (parseMoney rate_in) 0) eqn:Eq.
  { apply Qle_bool_iff in Eq. exfalso. exact (Qlt_not_le _ _ Hrate Eq). }
  rewrite find_none_intro; [reflexivity|].
  intros x Hx. destruct (TableSession.active x && Z.eqb (TableSession.table x) (TableSession.table t))
    eqn:E; [|reflexivity].
  exfalso. apply Hnin. apply andb_true_iff in E as [Ex Et]. apply Z.eqb_eq in Et.
  unfold activeTables. apply List.in_map_iff. exists x. split; [exact Et|].
  apply List.filter_In. split; [exact Hx|exact Ex].
Qed.

Lemma tableStop_frees_table_witness :
  let s := set_tables emptyState
             [TableSession.mk 1 3 2 25%Q "2026-03-10T23:30:00.000Z" None true None] in
  let s' := snd (tableClick (fun _ => None) s "table-stop" 1 1773186000000
                   "2026-03-11T00:00:00.000Z") in
  ~ In 3 (activeTables s') /\
  fst (tableFormSubmit s' (Some (inject_Z 3)) (Some 2%Q) (Some 25%Q) 2 "2026-03-11T00:01:00.000Z")
    = Done.
Proof.
  intros s s'.
  assert (Hnd : NoDup (activeTables s)) by (apply (bool_decide_unpack _); vm_compute; reflexivity).
  exact (tableStop_frees_table (fun _ => None) s s' 1 1773186000000 "2026-03-11T00:00:00.000Z"
           (TableSession.mk 1 3 2 25%Q "2026-03-10T23:30:00.000Z" None true None)
           (Some 2%Q) (Some 25%Q) 2 "2026-03-11T00:01:00.000Z"
           Hnd eq_refl eq_refl eq_refl ltac:(cbn; lia) ltac:(reflexivity)).
Defined.







(* ----------------------------------------------------------------- *)
(** ** Sample data *)

(** X16: [seedIfEmpty] only touches an empty state, leaves a non-empty
    one as it is, and is idempotent; the sample data it adds satisfies
    the product invariant and has one active session per table. *)
Theorem seedIfEmpty_spec (s : State) (newId nowMs newId' nowMs' : Z) :
  let s1 := seedIfEmpty s newId nowMs in
  seedIfEmpty s1 newId' nowMs' = s1 /\
  isStateEmptyT s1 = false /\
  (isStateEmptyT s = false -> s1 = s) /\
  (forallb productOk (products s) = true -> NoDup (activeTables s) ->
   forallb productOk (products s1) = true /\ NoDup (activeTables s1)).
Proof.
  cbn zeta. destruct (isStateEmptyT s) eqn:E.
  - unfold seedIfEmpty. rewrite !E. cbn. split; [reflexivity|]. split; [reflexivity|].
    split; [discriminate|]. intros _ _. split; [reflexivity|].
    unfold activeTables. cbn. apply NoDup_singleton.
  - unfold seedIfEmpty. rewrite !E. cbn [negb]. rewrite !E. cbn [negb].
    split; [reflexivity|]. split; [reflexivity|].
    split; [reflexivity|]. intros H1 H2. split; assumption.
Qed.

(* ----------------------------------------------------------------- *)
(** ** Importing a backup *)

Lemma saveState_effect (st : jval) (o : SaveOptions) (now : Z) (rnd : string) (w : world) :
  (wfail w IDB_STATE_KEY = true -> saveState st o now rnd w = (None, w)) /\
  (wfail w IDB_STATE_KEY = false ->
   exists w', saveState st o now rnd w = (Some tt, w') /\
     store w' !! IDB_STATE_KEY = Some (VState st) /\
     (forall k, k <> IDB_STATE_KEY -> k <> IDB_META_KEY -> store w' !! k = store w !! k) /\
     rfail w' = rfail w /\ wfail w' = wfail w).
Proof.
  unfold saveState. split; intros Ew.
  { unfold mbind, IDB_bind, idbSet at 1. rewrite Ew. reflexivity. }
  assert (Hs : idbSet IDB_STATE_KEY (VState st) w
               = (Some tt, with_store w (<[IDB_STATE_KEY := VState st]> (store w))))
    by (unfold idbSet; rewrite Ew; reflexivity).
  rewrite (bind_ok _ _ _ _ _ Hs).
  unfold try_ignore, catch_with, getMeta, setMeta, mbind, IDB_bind, idbGet, idbSet, mret, IDB_ret.
  cbn [rfail wfail store with_store].
  destruct (rfail w IDB_META_KEY); cbn [rfail wfail store with_store];
    [|destruct (wfail w IDB_META_KEY)]; cbn [rfail wfail store with_store];
    (eexists; split; [reflexivity|]); cbn [store rfail wfail with_store].
  - split; [apply lookup_insert_eq|]. split; [|split; reflexivity].
    intros k Hk _. apply lookup_insert_ne. congruence.
  - split; [apply lookup_insert_eq|]. split; [|split; reflexivity].
    intros k Hk _. apply lookup_insert_ne. congruence.
  - split; [rewrite lookup_insert_ne by (apply not_eq_sym, state_key_ne_meta);
            apply lookup_insert_eq|].
    split; [|split; reflexivity].
    intros k Hk Hm. rewrite !lookup_insert_ne by congruence. reflexivity.
Qed.

(** X17: importing a backup file replaces nothing unless the parsed
    document is an object with the arrays [products], [sales], [expenses]
    and [tables]: otherwise the live state and the store are unchanged.
    A well-formed document becomes the live state even when writing it
    fails; then the store still holds the old state document. *)
Theorem fileImport_spec (v state : jval) (now : Z) (rnd : string) (w : world) :
  let r := fileImport (Some (Some v)) state now rnd w in
  (isValidStateShape (Some v) = false -> r = (Some (ImportError, state), w)) /\
  (isValidStateShape (Some v) = true ->
   (wfail w IDB_STATE_KEY = false ->
      fst r = Some (Imported, v) /\ store (snd r) !! IDB_STATE_KEY = Some (VState v)) /\
   (wfail w IDB_STATE_KEY = true -> r = (Some (ImportError, v), w))).
Proof.
  cbn zeta. unfold fileImport, isValidStateShape.
  destruct (truthy (Some v) && typeof_object (Some v)) eqn:E1; cbn [negb andb].
  - destruct (is_array (obj_get "products" v) && is_array (obj_get "sales" v)
              && is_array (obj_get "expenses" v) && is_array (obj_get "tables" v)) eqn:E2;
      cbn [negb].
    + split; [discriminate|]. intros _.
      destruct (saveState_effect v noOptions now rnd w) as [Hf Hok]. split.
      * intros Ew. destruct (Hok Ew) as [w' [Hs [Hst _]]].
        unfold catch_with. rewrite (bind_ok _ _ _ _ _ Hs). split; [reflexivity|exact Hst].
      * intros Ew. unfold catch_with, mbind, IDB_bind. rewrite (Hf Ew). reflexivity.
    + split; [reflexivity|discriminate].
  - split; [reflexivity|discriminate].
Qed.

Lemma fileImport_spec_witness :
  let w := mkWorld ∅ (fun _ => false) (fun _ => false) in
  let v := JObj [("products", JArr []); ("sales", JArr []); ("expenses", JArr [])] in
  fileImport (Some (Some v)) (JObj []) 1773185400000 "dev-1" w = (Some (ImportError, JObj []), w).
Proof.
  intros w v. exact (proj1 (fileImport_spec v (JObj []) 1773185400000 "dev-1" w) eq_refl).
Defined.

(* ----------------------------------------------------------------- *)
(** ** Clearing all data *)

(** X18: confirming [btnClear] empties the whole store (snapshots, their
    index, the sync configuration and the metadata with its device id)
    and writes back only the empty state and fresh metadata: a new device
    id from [randomId()], the current time and the source "clear"; the
    legacy [localStorage] key is removed.  When [store.clear()] fails the
    live state is already the empty one while the store is untouched. *)
Theorem btnClear_spec (state : jval) (legacy : option string) (now : Z) (rnd : string)
    (w : world) :
  rfail w IDB_META_KEY = false -> wfail w IDB_STATE_KEY = false ->
  wfail w IDB_META_KEY = false ->
  (exists w', btnClear true true state legacy now rnd w = (Some (Cleared, emptyStateJ, None), w') /\
     store w' = <[IDB_META_KEY := VMeta (set_stateUpdated emptyMeta rnd (toISOString now) rnd "clear")]>
                  (<[IDB_STATE_KEY := VState emptyStateJ]> ∅)) /\
  btnClear true false state legacy now rnd w = (Some (ClearFailed, emptyStateJ, legacy), w).
Proof.
  intros Hrm Hws Hwm. split; [|reflexivity].
  unfold btnClear, idbClearAll. cbn [negb].
  assert (H1 : idbSet IDB_STATE_KEY (VState emptyStateJ) (with_store w ∅)
               = (Some tt, mkWorld (<[IDB_STATE_KEY := VState emptyStateJ]> ∅) (rfail w) (wfail w)))
    by (unfold idbSet; cbn [wfail with_store]; rewrite Hws; reflexivity).
  unfold saveState. rewrite (bind_ok _ _ _ _ _ H1).
  unfold try_ignore, catch_with, getMeta, setMeta, mbind, IDB_bind, idbGet, idbSet, mret, IDB_ret.
  cbn [rfail wfail store with_store]. rewrite Hrm. cbn [rfail wfail store with_store].
  rewrite Hwm. cbn [rfail wfail store with_store].
  rewrite lookup_insert_ne by discriminate. rewrite lookup_empty.
  eexists. split; reflexivity.
Qed.

Lemma btnClear_spec_witness :
  let w := mkWorld {[ IDB_SYNC_KEY := VSync (mkSyncConfig "https://dav.example/x.json" "u" "p" true) ]}
             (fun _ => false) (fun _ => false) in
  exists w', btnClear true true (JObj []) (Some "[]") 1773185400000 "dev-2" w
               = (Some (Cleared, emptyStateJ, None), w') /\
    store w' = <[IDB_META_KEY := VMeta (set_stateUpdated emptyMeta "dev-2"
                                         (toISOString 1773185400000) "dev-2" "clear")]>
                 (<[IDB_STATE_KEY := VState emptyStateJ]> ∅).
Proof.
  intros w. exact (proj1 (btnClear_spec (JObj []) (Some "[]") 1773185400000 "dev-2" w
                            eq_refl eq_refl eq_refl)).
Defined.

(* ----------------------------------------------------------------- *)
(** ** The automatic pull on startup *)

Lemma bind_fail {A B} (c : IDB A) (f : A -> IDB B) (w w' : world) :
  c w = (None, w') -> (c ≫= f) w = (None, w').
Proof. intros H. unfold mbind, IDB_bind. rewrite H. reflexivity. Qed.

Lemma getMeta_run (w : world) :
  getMeta w = if rfail w IDB_META_KEY then (None, w) else (Some (metaOf (store w)), w).
Proof.
  unfold getMeta, mbind, IDB_bind, idbGet, mret, IDB_ret, metaOf.
  destruct (rfail w IDB_META_KEY); reflexivity.
Qed.

Lemma getSyncConfig_run (w : world) :
  getSyncConfig w
  = if rfail w IDB_SYNC_KEY then (None, w) else (Some (syncConfigOf (store w)), w).
Proof.
  unfold getSyncConfig, mbind, IDB_bind, idbGet, mret, IDB_ret, syncConfigOf.
  destruct (rfail w IDB_SYNC_KEY); reflexivity.
Qed.

(** X19: the automatic pull on startup either leaves the live state and
    the stored state document as they were, or replaces the live state
    by the remote [state] of a fetched document; it does the latter only
    when auto-sync is on, the device is online, the remote state has the
    expected shape and the remote [updatedAt] is newer than the local
    [stateUpdatedAt] (a remote without a parsable [updatedAt] is never
    applied).  When it reports success the remote state is stored. *)
Theorem autoSync_only_newer (parseDate : string -> option Z) (online : bool)
    (fetched : FetchResult) (now : Z) (rnd : string) (state : jval) (w : world) r w' :
  autoSync parseDate online fetched now rnd state w = (r, w') ->
  exists o st', r = Some (o, st') /\
  ((st' = state /\ o <> AutoApplied /\ store w' !! IDB_STATE_KEY = store w !! IDB_STATE_KEY) \/
   (exists d, fetched = FBody (Some d) /\ rd_state d = Some st' /\
      isValidStateShape (Some st') = true /\
      isoNewerThan parseDate (or_null (rd_updatedAt d))
        (or_null (stateUpdatedAt (metaOf (store w)))) = true /\
      auto (syncConfigOf (store w)) = true /\ online = true /\
      (o = AutoApplied -> store w' !! IDB_STATE_KEY = Some (VState st')))).
Proof.
  unfold autoSync, catch_with at 1. intros H.
  assert (Hkeep : forall o, o <> AutoApplied ->
            (Some (o, state), w) = (r, w') ->
            exists o0 st', r = Some (o0, st') /\
            ((st' = state /\ o0 <> AutoApplied /\ store w' !! IDB_STATE_KEY = store w !! IDB_STATE_KEY)
             \/ False)).
  { intros o Ho E. injection E as <- <-. exists o, state. split; [reflexivity|].
    left. split; [reflexivity|]. split; [exact Ho|reflexivity]. }
  destruct (rfail w IDB_SYNC_KEY) eqn:Es.
  { rewrite (bind_fail _ _ w w) in H by (rewrite getSyncConfig_run, Es; reflexivity).
    destruct (Hkeep AutoError ltac:(discriminate) H) as [o [st' [Hr [Hl|[]]]]].
    exists o, st'. split; [exact Hr|left; exact Hl]. }
  rewrite (bind_ok _ _ w _ w) in H by (rewrite getSyncConfig_run, Es; reflexivity).
  destruct (auto (syncConfigOf (store w)) && negb (String.eqb (url (syncConfigOf (store w))) "")
            && online) eqn:Ec.
  2:{ unfold mret, IDB_ret in H.
      destruct (Hkeep AutoIdle ltac:(discriminate) H) as [o [st' [Hr [Hl|[]]]]].
      exists o, st'. split; [exact Hr|left; exact Hl]. }
  destruct fetched as [| status | | [d|]]; cbn [fetchRemoteSnapshot] in H.
  - unfold mret at 1, IDB_ret at 1 in H. rewrite (bind_ok _ _ w None w) in H by reflexivity.
    destruct (rfail w IDB_META_KEY) eqn:Em.
    + rewrite (bind_fail _ _ w w) in H by (rewrite getMeta_run, Em; reflexivity).
      destruct (Hkeep AutoError ltac:(discriminate) H) as [o [st' [Hr [Hl|[]]]]].
      exists o, st'. split; [exact Hr|left; exact Hl].
    + rewrite (bind_ok _ _ w _ w) in H by (rewrite getMeta_run, Em; reflexivity).
      destruct (Hkeep AutoNoChange ltac:(discriminate) H) as [o [st' [Hr [Hl|[]]]]].
      exists o, st'. split; [exact Hr|left; exact Hl].
  - rewrite (bind_fail _ _ w w) in H by reflexivity.
    destruct (Hkeep AutoError ltac:(discriminate) H) as [o [st' [Hr [Hl|[]]]]].
    exists o, st'. split; [exact Hr|left; exact Hl].
  - rewrite (bind_fail _ _ w w) in H by reflexivity.
    destruct (Hkeep AutoError ltac:(discriminate) H) as [o [st' [Hr [Hl|[]]]]].
    exists o, st'. split; [exact Hr|left; exact Hl].
  - rewrite (bind_ok _ _ w (Some d) w) in H by reflexivity.
    destruct (rfail w IDB_META_KEY) eqn:Em.
    + rewrite (bind_fail _ _ w w) in H by (rewrite getMeta_run, Em; reflexivity).
      destruct (Hkeep AutoError ltac:(discriminate) H) as [o [st' [Hr [Hl|[]]]]].
      exists o, st'. split; [exact Hr|left; exact Hl].
    + rewrite (bind_ok _ _ w _ w) in H by (rewrite getMeta_run, Em; reflexivity).
      cbn beta zeta in H.
      destruct (rd_state d) as [rs|] eqn:Ed.
      2:{ destruct (Hkeep AutoNoChange ltac:(discriminate) H) as [o [st' [Hr [Hl|[]]]]].
          exists o, st'. split; [exact Hr|left; exact Hl]. }
      destruct (truthy (Some rs) && isValidStateShape (Some rs)
                && isoNewerThan parseDate (or_null (rd_updatedAt d))
                     (or_null (stateUpdatedAt (metaOf (store w))))) eqn:Ev.
      2:{ destruct (Hkeep AutoNoChange ltac:(discriminate) H) as [o [st' [Hr [Hl|[]]]]].
          exists o, st'. split; [exact Hr|left; exact Hl]. }
      apply andb_true_iff in Ev as [Ev Hn]. apply andb_true_iff in Ev as [_ Hv].
      apply andb_true_iff in Ec as [Ec Ho]. apply andb_true_iff in Ec as [Ea _].
      set (opts := mkSaveOptions _ _ _) in H.
      destruct (saveState_effect rs opts now rnd w) as [Hf Hok].
      destruct (wfail w IDB_STATE_KEY) eqn:Ew.
      * unfold catch_with in H. rewrite (bind_fail _ _ w w) in H by exact (Hf eq_refl).
        injection H as <- <-. exists AutoError, rs. split; [reflexivity|].
        right. exists d. repeat split; try assumption. discriminate.
      * destruct (Hok eq_refl) as [w2 [Hs [Hst _]]].
        unfold catch_with in H. rewrite (bind_ok _ _ _ _ _ Hs) in H.
        injection H as <- <-. exists AutoApplied, rs. split; [reflexivity|].
        right. exists d. repeat split; try assumption. intros _. exact Hst.
  - rewrite (bind_fail _ _ w w) in H by reflexivity.
    destruct (Hkeep AutoError ltac:(discriminate) H) as [o [st' [Hr [Hl|[]]]]].
    exists o, st'. split; [exact Hr|left; exact Hl].
Qed.

Lemma autoSync_only_newer_witness :
  let w := mkWorld {[ IDB_SYNC_KEY := VSync (mkSyncConfig "https://dav.example/x.json" "" "" true) ]}
             (fun _ => false) (fun _ => false) in
  let d := mkRemoteDoc None None None (Some (JObj [("products", JArr []); ("sales", JArr []);
                                                    ("expenses", JArr []); ("tables", JArr [])])) in
  exists o st', fst (autoSync (fun _ => None) true (FBody (Some d)) 1773185400000 "dev-1" (JObj []) w)
                = Some (o, st').
Proof.
  intros w d.
  destruct (autoSync_only_newer (fun _ => None) true (FBody (Some d)) 1773185400000 "dev-1"
              (JObj []) w _ _ eq_refl) as [o [st' [Hr _]]].
  exists o, st'. exact Hr.
Defined.

(* ----------------------------------------------------------------- *)
(** ** Pushing to the remote *)

Lemma bind_ret {A B} (a : A) (f : A -> IDB B) (w : world) : (mret a ≫= f) w = f a w.
Proof. reflexivity. Qed.

Lemma metaOf_insert_meta (s : gmap string kvval) (m : Meta) :
  metaOf (<[IDB_META_KEY := VMeta m]> s) = m.
Proof. unfold metaOf. rewrite lookup_insert_eq. reflexivity. Qed.

Lemma metaOf_insert_sync (s : gmap string kvval) (v : kvval) :
  metaOf (<[IDB_SYNC_KEY := v]> s) = metaOf s.
Proof. unfold metaOf. rewrite lookup_insert_ne by discriminate. reflexivity. Qed.

Lemma pushFrame_refl (w : world) : pushFrame w w.
Proof. split; [intros; reflexivity|reflexivity]. Qed.

Lemma pushFrame_trans (w1 w2 w3 : world) : pushFrame w1 w2 -> pushFrame w2 w3 -> pushFrame w1 w3.
Proof.
  intros [H1 E1] [H2 E2]. split; [|congruence]. intros k Hs Hm. rewrite H2, H1 by assumption.
  reflexivity.
Qed.

Lemma pushFrame_meta (w : world) (m : Meta) :
  stateUpdatedAt m = stateUpdatedAt (metaOf (store w)) ->
  pushFrame w (with_store w (<[IDB_META_KEY := VMeta m]> (store w))).
Proof.
  intros E. split; cbn [store with_store].
  - intros k _ Hm. apply lookup_insert_ne. congruence.
  - rewrite metaOf_insert_meta. exact E.
Qed.

(** What the end of a push (the PUT, then stamping [lastSyncPushAt])
    does from a world [wx] whose metadata can be read. *)
Lemma push_tail (put_ok : bool) (now : Z) (a : PushOutcome) (wx : world) o w' :
  rfail wx IDB_META_KEY = false ->
  ((if put_ok then mret tt else throw);;
   m2 ← getMeta;
   setMeta (set_lastSyncPushAt m2 (toISOString now));;
   mret a) wx = (o, w') ->
  pushFrame wx w' /\
  ((o = None /\ lastSyncPushAt (metaOf (store w')) = lastSyncPushAt (metaOf (store wx))) \/
   (o = Some a /\ put_ok = true /\ lastSyncPushAt (metaOf (store w')) = Some (toISOString now))).
Proof.
  intros Hr H. destruct put_ok.
  2:{ rewrite (bind_fail _ _ wx wx) in H by reflexivity. injection H as <- <-.
      split; [apply pushFrame_refl|]. left; split; reflexivity. }
  rewrite bind_ret in H.
  rewrite (bind_ok _ _ wx _ wx) in H by (rewrite getMeta_run, Hr; reflexivity).
  unfold setMeta, idbSet at 1, mbind at 1, IDB_bind at 1 in H.
  destruct (wfail wx IDB_META_KEY).
  - injection H as <- <-. split; [apply pushFrame_refl|]. left; split; reflexivity.
  - unfold mret, IDB_ret in H. cbn beta iota in H. injection H as <- <-.
    split; [apply pushFrame_meta; reflexivity|].
    right. split; [reflexivity|]. split; [reflexivity|]. cbn [store with_store].
    rewrite metaOf_insert_meta. reflexivity.
Qed.

(** X20: a push never touches the stored state, the snapshots or their
    index: it writes only the sync configuration and the metadata, and in
    the metadata it never changes [stateUpdatedAt].  It reports success
    only when the PUT succeeded, and then [lastSyncPushAt] is the current
    time; on any other outcome [lastSyncPushAt] is unchanged. *)
Theorem btnPush_frame (parseDate : string -> option Z) (cfg : SyncConfig)
    (fetched : FetchResult) (ok put_ok : bool) (now : Z) (rnd : string) (w : world) r w' :
  btnPush parseDate cfg fetched ok put_ok now rnd w = (r, w') ->
  (forall k, k <> IDB_SYNC_KEY -> k <> IDB_META_KEY -> store w' !! k = store w !! k) /\
  stateUpdatedAt (metaOf (store w')) = stateUpdatedAt (metaOf (store w)) /\
  ((forall a b, r <> Some (PushOk a b)) ->
     lastSyncPushAt (metaOf (store w')) = lastSyncPushAt (metaOf (store w))) /\
  (forall a b, r = Some (PushOk a b) ->
     put_ok = true /\ lastSyncPushAt (metaOf (store w')) = Some (toISOString now)).
Proof.
  intros H.
  enough (G : pushFrame w w' /\
              ((forall a b, r <> Some (PushOk a b)) ->
                 lastSyncPushAt (metaOf (store w')) = lastSyncPushAt (metaOf (store w))) /\
              (forall a b, r = Some (PushOk a b) ->
                 put_ok = true /\ lastSyncPushAt (metaOf (store w')) = Some (toISOString now))).
  { destruct G as [[G1 G2] G3]. split; [exact G1|]. split; [exact G2|exact G3]. }
  unfold btnPush in H.
  destruct (wfail w IDB_SYNC_KEY) eqn:Ws.
  { rewrite (bind_fail _ _ w w) in H
      by (unfold persistCfg; apply bind_fail; unfold idbSet; rewrite Ws; reflexivity).
    injection H as <- <-. split; [apply pushFrame_refl|]. split; [reflexivity|discriminate]. }
  pose (w1 := with_store w (<[IDB_SYNC_KEY := VSync cfg]> (store w))).
  assert (Hp : persistCfg cfg w = (Some cfg, w1)).
  { unfold persistCfg. rewrite (bind_ok _ _ w tt w1); [reflexivity|].
    unfold idbSet. rewrite Ws. reflexivity. }
  assert (F1 : pushFrame w w1).
  { split; cbn [w1 store with_store].
    - intros k Hk _. apply lookup_insert_ne. congruence.
    - rewrite metaOf_insert_sync. reflexivity. }
  assert (L1 : lastSyncPushAt (metaOf (store w1)) = lastSyncPushAt (metaOf (store w))).
  { cbn [w1 store with_store]. rewrite metaOf_insert_sync. reflexivity. }
  assert (Hr1 : rfail w1 = rfail w) by reflexivity.
  assert (Hw1 : wfail w1 = wfail w) by reflexivity.
  rewrite (bind_ok _ _ _ _ _ Hp) in H. cbn beta in H.
  destruct (String.eqb (url cfg) "").
  { unfold mret, IDB_ret in H. injection H as <- <-.
    split; [exact F1|]. split; [intros _; exact L1|discriminate]. }
  unfold catch_with in H.
  (* the body of the [try]: its raw result [o] in world [wo] *)
  match type of H with
  | (match ?c w1 with _ => _ end) = _ => destruct (c w1) as [o wo] eqn:Hin
  end.
  assert (Hres : r = Some (match o with Some x => x | None => PushError end) /\ w' = wo).
  { destruct o as [x|]; unfold mret, IDB_ret in H; injection H as <- <-; split; reflexivity. }
  destruct Hres as [-> ->]. clear H.
  enough (G : pushFrame w1 wo /\
              ((forall a b, o <> Some (PushOk a b)) ->
                 lastSyncPushAt (metaOf (store wo)) = lastSyncPushAt (metaOf (store w1))) /\
              (forall a b, o = Some (PushOk a b) ->
                 put_ok = true /\ lastSyncPushAt (metaOf (store wo)) = Some (toISOString now))).
  { destruct G as [G1 [G2 G3]]. split; [exact (pushFrame_trans _ _ _ F1 G1)|]. split.
    - intros Hn. rewrite <- L1. apply G2. intros a b Ho. apply (Hn a b). rewrite Ho. reflexivity.
    - intros a b Ho. destruct o as [x|]; [|discriminate Ho]. injection Ho as ->.
      exact (G3 a b eq_refl). }
  assert (Hf : fetchRemoteSnapshot fetched w1 = (None, w1) \/
               exists rm, fetchRemoteSnapshot fetched w1 = (Some rm, w1)).
  { destruct fetched as [| | |[d|]]; [right; eexists; reflexivity|left; reflexivity|
      left; reflexivity|right; eexists; reflexivity|left; reflexivity]. }
  destruct Hf as [Hf|[rm Hf]].
  { rewrite (bind_fail _ _ _ _ Hf) in Hin. injection Hin as <- <-.
    split; [apply pushFrame_refl|]. split; [reflexivity|discriminate]. }
  rewrite (bind_ok _ _ _ _ _ Hf) in Hin.
  destruct (rfail w IDB_META_KEY) eqn:Rm.
  { rewrite (bind_fail _ _ w1 w1) in Hin by (rewrite getMeta_run, Hr1, Rm; reflexivity).
    injection Hin as <- <-.
    split; [apply pushFrame_refl|]. split; [reflexivity|discriminate]. }
  rewrite (bind_ok _ _ w1 _ w1) in Hin by (rewrite getMeta_run, Hr1, Rm; reflexivity).
  cbn beta zeta in Hin.
  destruct (pushNeedsConfirm parseDate _ _ && negb ok).
  { unfold mret, IDB_ret in Hin. injection Hin as <- <-.
    split; [apply pushFrame_refl|]. split; [reflexivity|discriminate]. }
  assert (Tail : forall wx dev, pushFrame w1 wx ->
            lastSyncPushAt (metaOf (store wx)) = lastSyncPushAt (metaOf (store w1)) ->
            rfail wx IDB_META_KEY = false ->
            ((if put_ok then mret tt else throw);;
             m2 ← getMeta;
             setMeta (set_lastSyncPushAt m2 (toISOString now));;
             mret (PushOk (str_or (or_null (stateUpdatedAt (metaOf (store w1)))) (toISOString now))
                     dev)) wx = (o, wo) ->
            pushFrame w1 wo /\
            ((forall a b, o <> Some (PushOk a b)) ->
               lastSyncPushAt (metaOf (store wo)) = lastSyncPushAt (metaOf (store w1))) /\
            (forall a b, o = Some (PushOk a b) ->
               put_ok = true /\ lastSyncPushAt (metaOf (store wo)) = Some (toISOString now))).
  { intros wx dev Fx Lx Rx Hx.
    destruct (push_tail _ _ _ _ _ _ Rx Hx) as [T1 [[-> T2]|[-> [T3 T4]]]].
    - split; [exact (pushFrame_trans _ _ _ Fx T1)|]. split; [intros _; congruence|discriminate].
    - split; [exact (pushFrame_trans _ _ _ Fx T1)|]. split.
      + intros Hn. exfalso. exact (Hn _ _ eq_refl).
      + intros a b _. split; assumption. }
  destruct (str_truthy (deviceId (metaOf (store w1)))) eqn:Dt.
  - rewrite bind_ret in Hin.
    exact (Tail w1 _ (pushFrame_refl w1) eq_refl ltac:(rewrite Hr1; exact Rm) Hin).
  - unfold ensureDeviceId at 1 in Hin. unfold mbind at 1, IDB_bind at 1 in Hin.
    rewrite (bind_ok _ _ w1 _ w1) in Hin by (rewrite getMeta_run, Hr1, Rm; reflexivity).
    rewrite Dt in Hin. unfold setMeta at 1, idbSet at 1, mbind at 1, IDB_bind at 1 in Hin.
    rewrite Hw1 in Hin. destruct (wfail w IDB_META_KEY) eqn:Wm.
    + injection Hin as <- <-.
      split; [apply pushFrame_refl|]. split; [reflexivity|discriminate].
    + unfold mret at 1, IDB_ret at 1 in Hin. cbn beta iota in Hin.
      apply (Tail _ rnd (pushFrame_meta w1 (set_deviceId (metaOf (store w1)) rnd) eq_refl));
        [| |exact Hin].
      * cbn [store with_store]. rewrite metaOf_insert_meta. reflexivity.
      * exact Rm.
Qed.

Lemma btnPush_frame_witness :
  let w := mkWorld {[ IDB_STATE_KEY := VState (JObj []) ]} (fun _ => false) (fun _ => false) in
  store (snd (btnPush (fun _ => None) (mkSyncConfig "https://dav.example/x.json" "" "" false)
                FNotFound true false 1773185400000 "dev-1" w)) !! IDB_STATE_KEY
  = store w !! IDB_STATE_KEY.
Proof.
  intros w.
  exact (proj1 (btnPush_frame (fun _ => None) (mkSyncConfig "https://dav.example/x.json" "" "" false)
                  FNotFound true false 1773185400000 "dev-1" w _ _ (surjective_pairing _))
           IDB_STATE_KEY ltac:(discriminate) ltac:(discriminate)).
Defined.

(* ----------------------------------------------------------------- *)
(** ** The legacy importer: references and counts *)

Section LegacyRefs.

Variable parseDate : string -> option Z.
Variable uuids : nat -> Z.
Variable now : Z.

(** Every product of [byName] is a product of the new state, and every
    sale names the id of one of them. *)
Definition accRefs (a : Acc) : Prop :=
  (forall k p, acc_byName a !! k = Some p -> In p (products (acc_state a))) /\
  (forall x, In x (sales (acc_state a)) ->
     exists p, In p (products (acc_state a)) /\ Product.id p = Sale.productId x).

Lemma importProduct_refs (a : Acc) (lp : LegacyProduct) :
  accRefs a -> accRefs (importProduct uuids a lp).
Proof.
  intros [Hb Hs]. unfold importProduct.
  destruct (String.eqb _ ""); [split; assumption|].
  split; cbn [acc_byName acc_state products set_products sales].
  - intros k p Hk. apply lookup_insert_Some in Hk as [[_ <-]|[_ Hk]].
    + apply List.in_or_app. right. left. reflexivity.
    + apply List.in_or_app. left. exact (Hb k p Hk).
  - intros x Hx. destruct (Hs x Hx) as [p [Hp Hid]]. exists p.
    split; [apply List.in_or_app; left; exact Hp|exact Hid].
Qed.

Lemma importSale_refs (a : Acc) (ls : LegacySale) :
  accRefs a -> accRefs (importSale parseDate uuids now a ls).
Proof.
  intros [Hb Hs]. unfold importSale.
  destruct (acc_byName a !! _) as [p|] eqn:Ep.
  - cbn [acc_byName acc_state products sales set_sales]. split; [exact Hb|].
    intros x Hx. apply List.in_app_or in Hx as [Hx|[<-|[]]].
    + exact (Hs x Hx).
    + exists p. split; [exact (Hb _ _ Ep)|reflexivity].
  - cbn [acc_byName acc_state products sales set_sales set_products]. split.
    + intros k q Hk. cbn [acc_byName] in Hk.
      apply lookup_insert_Some in Hk as [[_ <-]|[_ Hk]].
      * apply List.in_or_app. right. left. reflexivity.
      * apply List.in_or_app. left. exact (Hb k q Hk).
    + intros x Hx. apply List.in_app_or in Hx as [Hx|[<-|[]]].
      * destruct (Hs x Hx) as [q [Hq Hid]]. exists q.
        split; [apply List.in_or_app; left; exact Hq|exact Hid].
      * eexists. split; [apply List.in_or_app; right; left; reflexivity|reflexivity].
Qed.

Lemma importTable_refs (a : Acc) (lt : LegacyTable) :
  accRefs a -> accRefs (importTable parseDate uuids now a lt).
Proof.
  intros H. unfold importTable. destruct (lt_activa lt) as [[]|]; [| exact H|];
    exact H.
Qed.

Lemma fold_count_filter {A B} (f : A -> B -> A) (g : A -> nat) (p : B -> bool)
    (l : list B) (a : A) :
  (forall a x, g (f a x) = (g a + if p x then 1 else 0)%nat) ->
  g (List.fold_left f l a) = (g a + List.length (List.filter p l))%nat.
Proof.
  intros Hf. revert a. induction l as [|x r IH]; intros a; cbn [List.fold_left List.filter].
  - cbn. lia.
  - rewrite IH, Hf. destruct (p x); cbn [List.length]; lia.
Qed.

Lemma filter_all_true {B} (l : list B) : List.filter (fun _ => true) l = l.
Proof. induction l as [|x r IH]; cbn; [reflexivity|rewrite IH; reflexivity]. Qed.

End LegacyRefs.

(** X21: after a migration from the legacy keys, every imported sale
    refers to a product of the new state: a sale whose product name is
    not among the imported products gets a placeholder product. *)
Theorem migrate_sales_reference_products (parseDate : string -> option Z) (uuids : nat -> Z)
    (now : Z) (state s' : State) (lP : option (list LegacyProduct))
    (lS : option (list LegacySale)) (lT : option (list LegacyTable)) :
  migrateLegacy parseDate uuids now state lP lS lT = (s', true) ->
  forall x, In x (sales s') ->
    exists p, In p (products s') /\ Product.id p = Sale.productId x.
Proof.
  unfold migrateLegacy. destruct (negb (isStateEmptyT state)); [discriminate|].
  destruct (negb (nonempty lP || nonempty lS || nonempty lT)); [discriminate|].
  intros H. injection H as <-.
  match goal with |- context [acc_state ?a] => assert (Ha : accRefs a) end.
  { apply fold_left_preserves; [apply importTable_refs|].
    apply fold_left_preserves; [apply importSale_refs|].
    apply fold_left_preserves; [apply importProduct_refs|].
    split; [intros k p Hk; cbn [acc_byName] in Hk; rewrite lookup_empty in Hk; discriminate|intros x []]. }
  exact (proj2 Ha).
Qed.

Lemma migrate_sales_reference_products_witness :
  let ls := mkLegacySale (Some (Some 2%Q)) None (Some (Some 10%Q)) None None None None
              (Some "Cerveza") None None None in
  let r := migrateLegacy isoParse (fun n => Z.of_nat n + 1) 0 emptyState None (Some [ls]) None in
  r = (fst r, true) /\
  forall x, In x (sales (fst r)) ->
    exists p, In p (products (fst r)) /\ Product.id p = Sale.productId x.
Proof.
  intros ls r. assert (Hr : r = (fst r, true)) by (vm_compute; reflexivity).
  split; [exact Hr|].
  exact (migrate_sales_reference_products isoParse (fun n => Z.of_nat n + 1) 0 emptyState _
           None (Some [ls]) None Hr).
Defined.

(** X22: a migration from the legacy keys imports exactly one sale per
    legacy sale and one session per legacy table not marked
    [activa: false], and every imported session is active. *)
Theorem migrate_counts (parseDate : string -> option Z) (uuids : nat -> Z) (now : Z)
    (state s' : State) (lP : option (list LegacyProduct)) (lS : option (list LegacySale))
    (lT : option (list LegacyTable)) :
  migrateLegacy parseDate uuids now state lP lS lT = (s', true) ->
  List.length (sales s') = List.length (default [] lS) /\
  List.length (tables s') =
    List.length (List.filter (fun lt => match lt_activa lt with Some false => false | _ => true end)
                   (default [] lT)) /\
  forallb TableSession.active (tables s') = true.
Proof.
  unfold migrateLegacy. destruct (negb (isStateEmptyT state)); [discriminate|].
  destruct (negb (nonempty lP || nonempty lS || nonempty lT)); [discriminate|].
  intros H. injection H as <-. cbv zeta.
  set (a0 := mkAcc 0 _ ∅).
  set (a1 := List.fold_left (importProduct uuids) (default [] lP) a0).
  set (a2 := List.fold_left (importSale parseDate uuids now) (default [] lS) a1).
  assert (T1 : tables (acc_state a1) = []).
  { apply (fold_left_preserves (fun a => tables (acc_state a) = [])); [|reflexivity].
    intros a x Ha. unfold importProduct. destruct (String.eqb _ ""); [exact Ha|exact Ha]. }
  assert (S1 : sales (acc_state a1) = []).
  { apply (fold_left_preserves (fun a => sales (acc_state a) = [])); [|reflexivity].
    intros a x Ha. unfold importProduct. destruct (String.eqb _ ""); [exact Ha|exact Ha]. }
  assert (T2 : tables (acc_state a2) = []).
  { apply (fold_left_preserves (fun a => tables (acc_state a) = [])); [|exact T1].
    intros a x Ha. unfold importSale. destruct (acc_byName a !! _); exact Ha. }
  split; [|split].
  - rewrite (fold_count_filter _ (fun a => List.length (sales (acc_state a))) (fun _ => false)).
    + unfold a2.
      rewrite (fold_count_filter _ (fun a => List.length (sales (acc_state a))) (fun _ => true)).
      * rewrite filter_all_true. fold a1. rewrite S1. cbn [List.length].
        assert (List.filter (fun _ : LegacyTable => false) (default [] lT) = []) as ->
          by (clear; induction (default [] lT); cbn; auto).
        cbn [List.length]. lia.
      * intros a x. unfold importSale. destruct (acc_byName a !! _);
          cbn [acc_state sales set_sales set_products]; rewrite List.length_app; cbn [List.length]; lia.
    + intros a x. unfold importTable. destruct (lt_activa x) as [[]|]; cbn; lia.
  - rewrite (fold_count_filter _ (fun a => List.length (tables (acc_state a)))
               (fun lt => match lt_activa lt with Some false => false | _ => true end)).
    + fold a2. rewrite T2. reflexivity.
    + intros a x. unfold importTable. destruct (lt_activa x) as [[]|];
        cbn [acc_state tables set_tables]; rewrite ?List.length_app; cbn [List.length]; lia.
  - apply (fold_left_preserves (fun a => forallb TableSession.active (tables (acc_state a)) = true)).
    + intros a x Ha. unfold importTable. destruct (lt_activa x) as [[]|]; [| exact Ha|];
        cbn [acc_state tables set_tables]; rewrite forallb_app, Ha; reflexivity.
    + fold a2. rewrite T2. reflexivity.
Qed.

Lemma migrate_counts_witness :
  let lt := mkLegacyTable None (Some (Some 3%Q)) (Some (Some 2%Q)) (Some (Some 25%Q)) None in
  let r := migrateLegacy isoParse (fun n => Z.of_nat n + 1) 0 emptyState None None (Some [lt]) in
  r = (fst r, true) /\ List.length (tables (fst r)) = 1%nat.
Proof.
  intros lt r. assert (Hr : r = (fst r, true)) by (vm_compute; reflexivity).
  split; [exact Hr|].
  exact (proj1 (proj2 (migrate_counts isoParse (fun n => Z.of_nat n + 1) 0 emptyState _
                          None None (Some [lt]) Hr))).
Defined.
